(** * Durable job pipeline of the document-processing service

    A shallow embedding of [backend/app/main.py],
    [backend/app/services/redis_service.py] and
    [backend/app/consumers/pdf_consumer.py], with the properties of the
    pipeline proved over it.

    Python values are modelled as follows.
    - [str] is a sequence of Unicode code points ([pystr]); a code point is
      a natural number below [0x110000], lone surrogates included.
    - [bytes] is a list of [Byte.byte].
    - [dict] objects keyed by job ids are [gmap]s; JSON documents are trees.
    - Calls that leave the process (Redis commands, the HTTP status call,
      the processing strategy, the JSON codec, the id generator) are
      supplied by an environment, and each call may fail independently. *)

From Stdlib Require Import ZArith NArith QArith Lia List Bool.
From Stdlib.Strings Require Import String Ascii Byte.
From Stdlib Require Import DecimalString.
From stdpp Require Import base option list gmap strings.

Local Open Scope N_scope.
Set Warnings "-register-all,-clear-no-such-hyp".

(** ** Python strings and bytes *)

Module Py.

Abbreviation pystr := (list N) (only parsing).
Abbreviation bytes := (list byte) (only parsing).

(** A string literal of the source, as the sequence of its characters. *)
Definition py (s : string) : pystr :=
  List.map N_of_ascii (list_ascii_of_string s).

(** Every element of a Python [str] is a code point of the Unicode range. *)
Definition wf_pystr (s : pystr) : Prop := Forall (fun c => c < 0x110000) s.

Definition byte_of (n : N) : byte :=
  match Byte.of_N n with Some b => b | None => x00 end.

(** [s.endswith(suffix)] *)
Definition endswith (s suffix : pystr) : bool :=
  bool_decide (drop (length s - length suffix)%nat s = suffix).

(** *** [bytes.hex()] and [bytes.fromhex()] *)

Definition hexdigit (n : N) : N :=
  if n <? 10 then 48 + n else 87 + n.

Definition hex_byte (b : byte) : pystr :=
  [hexdigit (Byte.to_N b / 16); hexdigit (Byte.to_N b mod 16)].

(** [content.hex()]: two lowercase digits per byte. *)
Definition hex (bs : bytes) : pystr := flat_map hex_byte bs.

Definition hexval (c : N) : option N :=
  if (48 <=? c) && (c <=? 57) then Some (c - 48)
  else if (97 <=? c) && (c <=? 102) then Some (c - 87)
  else if (65 <=? c) && (c <=? 70) then Some (c - 55)
  else None.

(** ASCII white space, which [bytes.fromhex] skips between two bytes. *)
Definition isspace (c : N) : bool :=
  (c =? 32) || ((9 <=? c) && (c <=? 13)).

(** [bytes.fromhex(s)]; [None] stands for the [ValueError] raised on a
    character that is not a hexadecimal digit or on a lone digit. *)
Fixpoint fromhex (s : pystr) : option bytes :=
  match s with
  | [] => Some []
  | c :: rest =>
      if isspace c then fromhex rest
      else
        match rest with
        | [] => None
        | d :: rest' =>
            match hexval c, hexval d with
            | Some h, Some l =>
                match fromhex rest' with
                | Some bs => Some (byte_of (16 * h + l) :: bs)
                | None => None
                end
            | _, _ => None
            end
        end
  end.

(** *** [s.encode('utf-8', errors='replace').decode('utf-8')] *)

Definition is_surrogate (c : N) : bool := (0xD800 <=? c) && (c <=? 0xDFFF).

(** The placeholder the [replace] error handler writes when encoding. *)
Definition placeholder : N := 63.

Definition encode_cp (c : N) : bytes :=
  if c <? 0x80 then [byte_of c]
  else if c <? 0x800 then
    [byte_of (0xC0 + c / 64); byte_of (0x80 + c mod 64)]
  else if is_surrogate c then [byte_of placeholder]
  else if c <? 0x10000 then
    [byte_of (0xE0 + c / 4096); byte_of (0x80 + (c / 64) mod 64);
     byte_of (0x80 + c mod 64)]
  else
    [byte_of (0xF0 + c / 262144); byte_of (0x80 + (c / 4096) mod 64);
     byte_of (0x80 + (c / 64) mod 64); byte_of (0x80 + c mod 64)].

Definition encode_utf8_replace (s : pystr) : bytes := flat_map encode_cp s.

Definition is_cont (b : byte) : bool :=
  (0x80 <=? Byte.to_N b) && (Byte.to_N b <? 0xC0).

Definition cont (b : byte) : N := Byte.to_N b - 0x80.

Definition cons_cp (c : N) (r : option pystr) : option pystr :=
  match r with Some s => Some (c :: s) | None => None end.

(** The strict decoder: [None] stands for [UnicodeDecodeError] (a stray or
    missing continuation byte, an overlong form, an encoded surrogate or a
    value above [0x10FFFF]). *)
Fixpoint decode_utf8 (bs : bytes) : option pystr :=
  match bs with
  | [] => Some []
  | b0 :: r0 =>
      let n0 := Byte.to_N b0 in
      if n0 <? 0x80 then cons_cp n0 (decode_utf8 r0)
      else if n0 <? 0xC2 then None
      else if n0 <? 0xE0 then
        match r0 with
        | b1 :: r1 =>
            if is_cont b1
            then cons_cp ((n0 - 0xC0) * 64 + cont b1) (decode_utf8 r1)
            else None
        | _ => None
        end
      else if n0 <? 0xF0 then
        match r0 with
        | b1 :: b2 :: r2 =>
            let c := (n0 - 0xE0) * 4096 + cont b1 * 64 + cont b2 in
            if is_cont b1 && is_cont b2 && (0x800 <=? c) && negb (is_surrogate c)
            then cons_cp c (decode_utf8 r2)
            else None
        | _ => None
        end
      else if n0 <? 0xF5 then
        match r0 with
        | b1 :: b2 :: b3 :: r3 =>
            let c := (n0 - 0xF0) * 262144 + cont b1 * 4096
                     + cont b2 * 64 + cont b3 in
            if is_cont b1 && is_cont b2 && is_cont b3
               && (0x10000 <=? c) && (c <? 0x110000)
            then cons_cp c (decode_utf8 r3)
            else None
        | _ => None
        end
      else None
  end.

(** What the encode/decode pair leaves of one code point. *)
Definition replace_cp (c : N) : N := if is_surrogate c then placeholder else c.

(** The cleaning expression of the worker, on one string. *)
Definition clean (s : pystr) : option pystr :=
  decode_utf8 (encode_utf8_replace s).

End Py.

Import Py.

(** ** JSON documents and the enumerations of [models/pdf_models.py] *)

(** A decoded JSON document, which is also the shape of every value the
    endpoints receive and keep: [dict] is an association list read from the
    left, [float] is carried as a rational and never computed with. *)
Inductive json : Type :=
  | JNull
  | JBool (b : bool)
  | JInt (z : Z)
  | JFloat (x : Q)
  | JStr (s : pystr)
  | JArr (items : list json)
  | JObj (members : list (string * json)).

(** Truth value of a Python object, as [if not x] reads it. *)
Definition truthy (v : json) : bool :=
  match v with
  | JNull => false
  | JBool b => b
  | JInt z => negb (z =? 0)%Z
  | JFloat x => negb (Qeq_bool x 0)
  | JStr s => match s with [] => false | _ => true end
  | JArr l => match l with [] => false | _ => true end
  | JObj m => match m with [] => false | _ => true end
  end.

Fixpoint assoc (k : string) (m : list (string * json)) : option json :=
  match m with
  | [] => None
  | (k', v) :: m' => if String.eqb k k' then Some v else assoc k m'
  end.

(** [None] of Python is [JNull]. *)
Definition of_option (o : option json) : json :=
  match o with Some v => v | None => JNull end.

Inductive ProcessingStatus := PENDING | PROCESSING | COMPLETED | FAILED.

Definition status_value (s : ProcessingStatus) : pystr :=
  match s with
  | PENDING => py "pending"
  | PROCESSING => py "processing"
  | COMPLETED => py "completed"
  | FAILED => py "failed"
  end.

Inductive ParserType := PYPDF | GEMINI_FLASH | MISTRAL.

Definition parser_value (p : ParserType) : pystr :=
  match p with
  | PYPDF => py "pypdf"
  | GEMINI_FLASH => py "gemini_flash"
  | MISTRAL => py "mistral"
  end.

(** [ParserType(v)]: the member whose value is [v]; [None] stands for the
    [ValueError] of a value outside the enumeration. *)
Definition ParserType_of (v : json) : option ParserType :=
  match v with
  | JStr s =>
      if bool_decide (s = py "pypdf") then Some PYPDF
      else if bool_decide (s = py "gemini_flash") then Some GEMINI_FLASH
      else if bool_decide (s = py "mistral") then Some MISTRAL
      else None
  | _ => None
  end.

Record PDFTextExtraction := {
  text : pystr;
  markdown : pystr;
  page_count : Z;
  metadata : json;
  extraction_parser_used : ParserType
}.

Record GeminiAnalysis := {
  summary : pystr;
  key_points : list pystr;
  sentiment : option pystr;
  topics : list pystr;
  confidence_score : option Q
}.

Record ProcessingResult := {
  extraction : PDFTextExtraction;
  analysis : GeminiAnalysis;
  processing_time : Q;
  filename : pystr;
  parser_used : ParserType
}.

(** ** Exceptions, events and the state of the system *)

(** An exception is known by its text: [Exception msg] stands for any
    exception [e] with [str(e) = msg], [HTTPException] for the one the
    endpoints raise to answer with a status code. *)
Inductive exn :=
  | Exception (msg : pystr)
  | HTTPException (status_code : Z) (detail : pystr).

(** [str(e)]; the worker, the only reader of it, meets no [HTTPException]. *)
Definition str_exn (e : exn) : pystr :=
  match e with
  | Exception msg => msg
  | HTTPException _ detail => detail
  end.

Inductive outcome (A : Type) :=
  | Return (a : A)
  | Raised (e : exn).
Arguments Return {A} a.
Arguments Raised {A} e.

(** The effects of a run in the order they happen: the calls that leave
    the process, logged when they are issued, and the entries the gateway
    writes into the status register. *)
Inductive Event :=
  | EvUuid (id : pystr)
  | EvXAdd (fields : gmap string pystr)
  | EvDeliver (message_id : nat)
  | EvXAck (message_id : nat)
  | EvSetEx (key : pystr) (seconds : Z) (value : pystr)
  | EvGet (key : pystr)
  | EvUpdateStatus (processing_id : pystr) (status_data : gmap string json)
  | EvProcess (content : bytes) (name : json) (parser : ParserType)
  | EvSetStatus (processing_id : pystr) (entry : gmap string json).

(** The state of the system.
    - [redis_client]: whether [RedisService.redis_client] is set.
    - [stream], [last_delivered], [pel]: the stream, the cursor of the
      consumer group (the number of entries delivered to it so far) and its
      pending entries list.  An entry is identified by its position in the
      stream, which the broker assigns when it appends.
    - [result_store]: the keys written with an expiration, each with its
      value and its seconds; an expired key is an absent key.
    - [processing_status]: the dictionary of [main.py].
    - [clock]: the number of calls made to the environment so far.
    - [log]: the effects so far, oldest first. *)
Record World := mkWorld {
  redis_client : bool;
  stream : list (gmap string pystr);
  last_delivered : nat;
  pel : gset nat;
  result_store : gmap pystr (pystr * Z);
  processing_status : gmap pystr (gmap string json);
  clock : nat;
  log : list Event
}.

(** What the code does not define itself.  Calls to the environment are
    numbered by the clock of the world.
    - [uuid4 n]: the text of the identifier generated by call [n].
    - [json_dumps], [json_loads]: the JSON codec; [inr msg] stands for the
      [JSONDecodeError] with text [msg].
    - [process_pdf n content filename parser]: what
      [PDFProcessor.process_pdf] returns when called as call [n], or the
      text of the exception it raises.
    - [fault n]: the text of the error of call [n], when call [n] is a
      Redis command or an HTTP request that fails.
    - [format_parser]: how an f-string renders a member of [ParserType].
    - [attribute_error v], [fromhex_error v]: the texts of the exceptions
      raised by [v.get] on a [v] that is no [dict] and by
      [bytes.fromhex(v)] on a [v] that is no hexadecimal text. *)
Record Env := {
  uuid4 : nat -> pystr;
  json_dumps : json -> pystr;
  json_loads : pystr -> json + pystr;
  process_pdf : nat -> bytes -> json -> ParserType -> ProcessingResult + pystr;
  fault : nat -> option pystr;
  format_parser : ParserType -> pystr;
  attribute_error : json -> pystr;
  fromhex_error : json -> pystr
}.

(** ** State and exceptions

    A computation reads and changes the world and either returns or raises;
    what it changed before raising stays changed, as in Python. *)

Definition M (A : Type) : Type := World -> outcome A * World.

Definition ret {A} (a : A) : M A := fun w => (Return a, w).

Definition bind {A B} (m : M A) (k : A -> M B) : M B :=
  fun w =>
    match m w with
    | (Return a, w') => k a w'
    | (Raised e, w') => (Raised e, w')
    end.

Definition raise {A} (e : exn) : M A := fun w => (Raised e, w).

(** [try: m  except Exception as e: h e] *)
Definition try_except {A} (m : M A) (h : exn -> M A) : M A :=
  fun w =>
    match m w with
    | (Return a, w') => (Return a, w')
    | (Raised e, w') => h e w'
    end.

#[global] Instance M_ret : MRet M := @ret.
#[global] Instance M_bind : MBind M := fun A B k m => bind m k.

Definition emit (e : Event) : M unit :=
  fun w =>
    (Return tt,
     mkWorld (redis_client w) (stream w) (last_delivered w) (pel w)
       (result_store w) (processing_status w) (clock w) (log w ++ [e])).

(** The number of the next call to the environment. *)
Definition tick : M nat :=
  fun w =>
    (Return (clock w),
     mkWorld (redis_client w) (stream w) (last_delivered w) (pel w)
       (result_store w) (processing_status w) (S (clock w)) (log w)).

Definition set_stream (s : list (gmap string pystr)) : M unit :=
  fun w =>
    (Return tt,
     mkWorld (redis_client w) s (last_delivered w) (pel w)
       (result_store w) (processing_status w) (clock w) (log w)).

Definition set_group (cursor : nat) (p : gset nat) : M unit :=
  fun w =>
    (Return tt,
     mkWorld (redis_client w) (stream w) cursor p
       (result_store w) (processing_status w) (clock w) (log w)).

Definition set_result_store (r : gmap pystr (pystr * Z)) : M unit :=
  fun w =>
    (Return tt,
     mkWorld (redis_client w) (stream w) (last_delivered w) (pel w)
       r (processing_status w) (clock w) (log w)).

Definition set_processing_status (p : gmap pystr (gmap string json)) : M unit :=
  fun w =>
    (Return tt,
     mkWorld (redis_client w) (stream w) (last_delivered w) (pel w)
       (result_store w) p (clock w) (log w)).

Definition get_world : M World := fun w => (Return w, w).

Fixpoint for_each {A} (l : list A) (body : A -> M unit) : M unit :=
  match l with
  | [] => ret tt
  | x :: l' => body x;; for_each l' body
  end.

Section Service.

Context (env : Env).

(** A Redis command or an HTTP request leaving the process: it takes the
    next number and raises what the environment says that call raises. *)
Definition outgoing : M unit :=
  n ← tick;
  match fault env n with
  | Some msg => raise (Exception msg)
  | None => ret tt
  end.

(** ** The broker, as the commands of [redis_service.py] use it *)

(** [XADD stream fields]: append, answer the id of the new entry. *)
Definition xadd (fields : gmap string pystr) : M nat :=
  emit (EvXAdd fields);;
  outgoing;;
  w ← get_world;
  set_stream (stream w ++ [fields]);;
  ret (length (stream w)).

Fixpoint number_from {A} (i : nat) (l : list A) : list (nat * A) :=
  match l with
  | [] => []
  | x :: l' => (i, x) :: number_from (S i) l'
  end.

(** [XREADGROUP group consumer COUNT count STREAMS stream >]: the entries
    never delivered to the group so far, at most [count] of them; they move
    to the pending entries list.  The answer is empty when there is none. *)
Definition xreadgroup (count : nat) : M (list (pystr * list (nat * gmap string pystr))) :=
  outgoing;;
  w ← get_world;
  let batch := number_from (last_delivered w)
                 (take count (drop (last_delivered w) (stream w))) in
  match batch with
  | [] => ret []
  | _ =>
      set_group (last_delivered w + length batch)%nat
                (pel w ∪ list_to_set (batch.*1));;
      for_each batch (fun m => emit (EvDeliver m.1));;
      ret [(py "pdf_processing_stream", batch)]
  end.

(** [XACK stream group id]: the entry leaves the pending entries list. *)
Definition xack (message_id : nat) : M unit :=
  emit (EvXAck message_id);;
  outgoing;;
  w ← get_world;
  set_group (last_delivered w) (pel w ∖ {[message_id]}).

(** [SETEX key seconds value] *)
Definition setex (key : pystr) (seconds : Z) (value : pystr) : M unit :=
  emit (EvSetEx key seconds value);;
  outgoing;;
  w ← get_world;
  set_result_store (<[key := (value, seconds)]> (result_store w)).

(** [GET key]: the value, or [None] for a key that is absent (never
    written, or expired and removed by the broker). *)
Definition redis_get (key : pystr) : M (option pystr) :=
  emit (EvGet key);;
  outgoing;;
  w ← get_world;
  ret (fst <$> result_store w !! key).

(** ** [RedisService] *)

Definition require_client : M unit :=
  w ← get_world;
  if redis_client w then ret tt
  else raise (Exception (py "Redis client not initialized")).

Definition add_to_stream (processing_id : pystr) (data : json) : M nat :=
  require_client;;
  try_except
    (let message_data : gmap string pystr :=
       <["processing_id" := processing_id]>
         (<["data" := json_dumps env data]> ∅) in
     message_id ← xadd message_data;
     ret message_id)
    (fun e => raise e).

Definition read_messages (count : nat)
  : M (list (pystr * list (nat * gmap string pystr))) :=
  require_client;;
  try_except
    (messages ← xreadgroup count;
     ret messages)
    (fun e => ret []).

Definition acknowledge_message (message_id : nat) : M unit :=
  require_client;;
  try_except (xack message_id) (fun e => ret tt).

Definition store_result (processing_id : pystr) (data : json)
    (expire_seconds : Z) : M unit :=
  require_client;;
  try_except
    (let key := py "result:" ++ processing_id in
     setex key expire_seconds (json_dumps env data))
    (fun e => raise e).

Definition get_result (processing_id : pystr) : M (option json) :=
  require_client;;
  try_except
    (let key := py "result:" ++ processing_id in
     data ← redis_get key;
     match data with
     | Some (c :: s) =>
         match json_loads env (c :: s) with
         | inl v => ret (Some v)
         | inr msg => raise (Exception msg)
         end
     | _ => ret None
     end)
    (fun e => ret None).

(** ** [main.py]: the endpoints *)

Record UploadFile := {
  upload_filename : pystr;
  upload_content : bytes
}.

Definition fresh_uuid : M pystr :=
  n ← tick;
  emit (EvUuid (uuid4 env n));;
  ret (uuid4 env n).

Definition pending_entry (file : UploadFile) (parser : ParserType)
  : gmap string json :=
  <["status" := JStr (status_value PENDING)]>
    (<["filename" := JStr (upload_filename file)]>
      (<["parser" := JStr (parser_value parser)]>
        (<["message" :=
             JStr (py "PDF uploaded and queued for processing with "
                   ++ format_parser env parser ++ py " parser")]> ∅))).

Definition stream_payload (file : UploadFile) (processing_id : pystr)
    (parser : ParserType) : json :=
  JObj [("filename", JStr (upload_filename file));
        ("content", JStr (hex (upload_content file)));
        ("processing_id", JStr processing_id);
        ("parser", JStr (parser_value parser))].

(** The body of [upload_pdf]; its [parser] argument is a member of the
    enumeration already. *)
Definition upload_pdf (file : UploadFile) (parser : ParserType) : M json :=
  if negb (endswith (upload_filename file) (py ".pdf"))
  then raise (HTTPException 400 (py "Only PDF files are allowed"))
  else
    processing_id ← fresh_uuid;
    let content := upload_content file in
    w ← get_world;
    emit (EvSetStatus processing_id (pending_entry file parser));;
    set_processing_status
      (<[processing_id := pending_entry file parser]> (processing_status w));;
    add_to_stream processing_id (stream_payload file processing_id parser);;
    ret (JObj [("processing_id", JStr processing_id);
               ("status", JStr (status_value PENDING));
               ("message",
                JStr (py "PDF uploaded and queued for processing with "
                      ++ format_parser env parser ++ py " parser"));
               ("parser", JStr (parser_value parser));
               ("result", JNull)]).

(** [POST /update-status/{processing_id}] *)
Definition update_processing_status (processing_id : pystr)
    (status_data : gmap string json) : M json :=
  w ← get_world;
  match processing_status w !! processing_id with
  | Some entry =>
      set_processing_status
        (<[processing_id := status_data ∪ entry]> (processing_status w));;
      ret (JObj [("message", JStr (py "Status updated"))])
  | None => raise (HTTPException 404 (py "Processing ID not found"))
  end.

(** [results.get(key, default)] on what [get_result] answered. *)
Definition results_get (results : json) (key : string) (default_value : json)
  : M json :=
  match results with
  | JObj m => ret (default default_value (assoc key m))
  | _ => raise (Exception (attribute_error env results))
  end.

(** [GET /results/{processing_id}] *)
Definition get_processing_results (processing_id : pystr) : M json :=
  try_except
    (results ← get_result processing_id;
     if negb (truthy (of_option results))
     then raise (HTTPException 404 (py "Results not found or expired"))
     else
       let results := of_option results in
       markdown ← results_get results "markdown" (JStr []);
       summary ← results_get results "summary" (JStr []);
       parser_used ← results_get results "parser_used" (JStr (py "unknown"));
       filename ← results_get results "filename" (JStr []);
       processing_time ← results_get results "processing_time" (JInt 0);
       ret (JObj [("processing_id", JStr processing_id);
                  ("markdown", markdown);
                  ("summary", summary);
                  ("parser_used", parser_used);
                  ("filename", filename);
                  ("processing_time", processing_time)]))
    (fun e =>
       match e with
       | HTTPException _ _ => raise e
       | Exception msg =>
           raise (HTTPException 500 (py "Failed to retrieve results: " ++ msg))
       end).

(** What the client receives: the status code and the body. *)
Inductive Response := HTTPResponse (status_code : Z) (body : json).

Definition serve (handler : M json) (w : World) : Response * World :=
  match handler w with
  | (Return body, w') => (HTTPResponse 200 body, w')
  | (Raised (HTTPException code detail), w') =>
      (HTTPResponse code (JObj [("detail", JStr detail)]), w')
  | (Raised (Exception _), w') =>
      (HTTPResponse 500 (JStr (py "Internal Server Error")), w')
  end.

(** [POST /upload-pdf] as the framework binds it from the signature
    [parser: ParserType = Form(ParserType.PYPDF)].  A form field that is
    absent or empty takes the default; any other text is validated against
    the enumeration before the body runs, and a text outside it is
    answered 422 with the errors of the validation, which the framework
    writes ([errors]), under [detail].  The file is the one of the form. *)
Definition post_upload_pdf (errors : pystr -> json) (file : UploadFile)
    (parser_field : option pystr) (w : World) : Response * World :=
  match parser_field with
  | None | Some [] => serve (upload_pdf file PYPDF) w
  | Some s =>
      match ParserType_of (JStr s) with
      | Some parser => serve (upload_pdf file parser) w
      | None => (HTTPResponse 422 (JObj [("detail", errors s)]), w)
      end
  end.

(** ** [PDFConsumer] *)

(** The request as the application answers it: [update_processing_status]
    runs on the register, and the caller only logs a status code other
    than 200.  The worker pastes the job id into the path of the URL as it
    is; the model takes the id for the path parameter the application
    receives, which is the case for an id made of letters, digits, [-]
    and [_], as the ids of the gateway are. *)
Definition answered (handler : M json) : M unit :=
  fun w => (Return tt, (serve handler w).2).

Definition _update_status (processing_id : pystr)
    (status_data : gmap string json) : M unit :=
  try_except
    (emit (EvUpdateStatus processing_id status_data);;
     outgoing;;
     answered (update_processing_status processing_id status_data))
    (fun e => ret tt).

Definition _store_results_in_redis (processing_id : pystr) (data : json)
  : M unit :=
  try_except (store_result processing_id data 86400) (fun e => ret tt).

(** [data.get(key)] and [data.get(key, default)] of the decoded payload. *)
Definition data_get (data : json) (key : string) (default_value : json)
  : M json :=
  match data with
  | JObj m => ret (default default_value (assoc key m))
  | _ => raise (Exception (attribute_error env data))
  end.

Definition bytes_fromhex (v : json) : M bytes :=
  match v with
  | JStr s =>
      match fromhex s with
      | Some bs => ret bs
      | None => raise (Exception (fromhex_error env v))
      end
  | _ => raise (Exception (fromhex_error env v))
  end.

Definition call_process_pdf (pdf_content : bytes) (name : json)
    (parser : ParserType) : M ProcessingResult :=
  emit (EvProcess pdf_content name parser);;
  n ← tick;
  match process_pdf env n pdf_content name parser with
  | inl result => ret result
  | inr msg => raise (Exception msg)
  end.

(** [s.encode('utf-8', errors='replace').decode('utf-8')] *)
Definition clean_str (s : pystr) : M pystr :=
  match clean s with
  | Some s' => ret s'
  | None => raise (Exception (py "'utf-8' codec can't decode"))
  end.

Fixpoint clean_list (l : list pystr) : M (list pystr) :=
  match l with
  | [] => ret []
  | s :: l' => s' ← clean_str s; r ← clean_list l'; ret (s' :: r)
  end.

Definition opt_str (o : option pystr) : json :=
  match o with Some s => JStr s | None => JNull end.

Definition opt_float (o : option Q) : json :=
  match o with Some x => JFloat x | None => JNull end.

Definition result_record (clean_markdown clean_summary : pystr)
    (result : ProcessingResult) : json :=
  JObj [("markdown", JStr clean_markdown);
        ("summary", JStr clean_summary);
        ("parser_used", JStr (parser_value (parser_used result)));
        ("filename", JStr (filename result));
        ("processing_time", JFloat (processing_time result))].

Definition full_result (clean_text clean_markdown clean_summary : pystr)
    (clean_key_points clean_topics : list pystr)
    (result : ProcessingResult) : json :=
  JObj [("extraction",
         JObj [("text", JStr clean_text);
               ("markdown", JStr clean_markdown);
               ("page_count", JInt (page_count (extraction result)));
               ("metadata", metadata (extraction result));
               ("parser_used",
                JStr (parser_value (extraction_parser_used (extraction result))))]);
        ("analysis",
         JObj [("summary", JStr clean_summary);
               ("key_points", JArr (JStr <$> clean_key_points));
               ("sentiment", opt_str (sentiment (analysis result)));
               ("topics", JArr (JStr <$> clean_topics));
               ("confidence_score",
                opt_float (confidence_score (analysis result)))]);
        ("processing_time", JFloat (processing_time result));
        ("filename", JStr (filename result));
        ("parser_used", JStr (parser_value (parser_used result)))].

Definition processing_update : gmap string json :=
  <["status" := JStr (status_value PROCESSING)]>
    (<["message" := JStr (py "Processing PDF...")]> ∅).

Definition completed_update (result : ProcessingResult) (embedded : json)
  : gmap string json :=
  <["status" := JStr (status_value COMPLETED)]>
    (<["message" := JStr (py "PDF processing completed successfully")]>
      (<["parser" := JStr (parser_value (parser_used result))]>
        (<["result" := embedded]> ∅))).

Definition failed_update (e : exn) : gmap string json :=
  <["status" := JStr (status_value FAILED)]>
    (<["message" := JStr (py "Processing failed: " ++ str_exn e)]> ∅).

(** [if not s] for a value read with [fields.get]. *)
Definition field_missing (o : option pystr) : bool :=
  match o with Some (_ :: _) => false | _ => true end.

(** [processing_id] is read first and its reading cannot raise, so the
    handler sees the value read from the entry, as in the source. *)
Definition _process_message (message_id : nat) (fields : gmap string pystr)
  : M unit :=
  let processing_id := fields !! "processing_id" in
  try_except
    (let data_json := fields !! "data" in
     if field_missing processing_id || field_missing data_json
     then acknowledge_message message_id
     else
       let processing_id := default [] processing_id in
       data ← match json_loads env (default [] data_json) with
              | inl v => ret v
              | inr msg => raise (Exception msg)
              end;
       name ← data_get data "filename" JNull;
       content_hex ← data_get data "content" JNull;
       parser_str ← data_get data "parser" (JStr (py "pypdf"));
       let parser :=
         match ParserType_of parser_str with
         | Some p => p
         | None => PYPDF
         end in
       if negb (truthy name) || negb (truthy content_hex)
       then acknowledge_message message_id
       else
         pdf_content ← bytes_fromhex content_hex;
         _update_status processing_id processing_update;;
         result ← call_process_pdf pdf_content name parser;
         clean_text ← clean_str (text (extraction result));
         clean_markdown ← clean_str (markdown (extraction result));
         clean_summary ← clean_str (summary (analysis result));
         clean_key_points ← clean_list (key_points (analysis result));
         clean_topics ← clean_list (topics (analysis result));
         _store_results_in_redis processing_id
           (result_record clean_markdown clean_summary result);;
         _update_status processing_id
           (completed_update result
              (full_result clean_text clean_markdown clean_summary
                 clean_key_points clean_topics result));;
         acknowledge_message message_id)
    (fun e =>
       (if field_missing processing_id then ret tt
        else _update_status (default [] processing_id) (failed_update e));;
       acknowledge_message message_id).

(** One turn of the loop of [consume_messages]; the pauses are not part of
    the model. *)
Definition consume_once : M unit :=
  try_except
    (messages ← read_messages 1;
     match messages with
     | [] => ret tt
     | _ =>
         for_each messages (fun sm =>
           for_each sm.2 (fun m => _process_message m.1 m.2))
     end)
    (fun e => ret tt).

(** [consume_messages], stopped after [n] turns. *)
Fixpoint consume_messages (n : nat) : M unit :=
  match n with
  | O => ret tt
  | S n' => consume_once;; consume_messages n'
  end.

End Service.

(** ** A concrete environment, for running the model *)

Module Demo.

Definition quote : pystr := [34].

(** The text [json.dumps] writes for an object whose members are strings
    without characters to escape, whole numbers or [null]; any other
    document is written as [null]. *)
Definition dumps_scalar (v : json) : pystr :=
  match v with
  | JStr s => quote ++ s ++ quote
  | JInt z => py (NilZero.string_of_int (Z.to_int z))
  | JFloat x => py (NilZero.string_of_int (Z.to_int (Qnum x))) ++ py ".0"
  | JBool true => py "true"
  | JBool false => py "false"
  | _ => py "null"
  end.

Fixpoint dumps_members (m : list (string * json)) : pystr :=
  match m with
  | [] => []
  | (k, v) :: m' =>
      quote ++ py k ++ quote ++ py ": " ++ dumps_scalar v
      ++ match m' with [] => [] | _ => py ", " ++ dumps_members m' end
  end.

Definition dumps (j : json) : pystr :=
  match j with
  | JObj m => py "{" ++ dumps_members m ++ py "}"
  | _ => dumps_scalar j
  end.

Definition a_pdf : UploadFile :=
  {| upload_filename := py "a.pdf";
     upload_content := [x25; x50; x44; x46; x00; xff] |}.

Definition empty_pdf : UploadFile :=
  {| upload_filename := py "a.pdf"; upload_content := [] |}.

Definition job : pystr := py "job-0".

Definition payload (parser : pystr) : json :=
  JObj [("filename", JStr (py "a.pdf"));
        ("content", JStr (hex (upload_content a_pdf)));
        ("processing_id", JStr job);
        ("parser", JStr parser)].

Definition no_content : json :=
  JObj [("filename", JStr (py "a.pdf"));
        ("content", JStr []);
        ("processing_id", JStr job);
        ("parser", JStr (py "pypdf"))].

Definition a_result (parser : ParserType) : ProcessingResult :=
  {| extraction :=
       {| text := py "Hello" ++ [0xD800];
          markdown := py "Hello" ++ [0xD800; 0x20AC];
          page_count := 1;
          metadata := JObj [];
          extraction_parser_used := parser |};
     analysis :=
       {| summary := py "A greeting";
          key_points := [py "hello"];
          sentiment := Some (py "neutral");
          topics := [py "document"];
          confidence_score := None |};
     processing_time := 0;
     filename := py "a.pdf";
     parser_used := parser |}.

(** What the worker stores for [a_result PYPDF]. *)
Definition stored_record : json :=
  result_record (py "Hello?" ++ [0x20AC]) (py "A greeting") (a_result PYPDF).

(** The decoder knows the documents above and rejects every other text
    the way [json.loads] rejects a text that is no JSON. *)
Definition loads (s : pystr) : json + pystr :=
  if bool_decide (s = dumps (payload (py "pypdf"))) then inl (payload (py "pypdf"))
  else if bool_decide (s = dumps (payload (py "tesseract"))) then inl (payload (py "tesseract"))
  else if bool_decide (s = dumps no_content) then inl no_content
  else if bool_decide (s = dumps stored_record) then inl stored_record
  else inr (py "Expecting value: line 1 column 1 (char 0)").

(** The strategy fails on request: the [failing] flag stands for a
    document it cannot read. *)
Definition strategy (failing : bool) (n : nat) (content : bytes)
    (name : json) (parser : ParserType) : ProcessingResult + pystr :=
  if failing then inr (py "boom") else inl (a_result parser).

(** [only_call n]: every call works except call [n]. *)
Definition only_call (n : nat) (k : nat) : option pystr :=
  if Nat.eqb n k then Some (py "Connection refused") else None.

Definition env (failing : bool) (faulty : nat -> option pystr) : Env :=
  {| uuid4 := fun n => py "job-" ++ [48 + N.of_nat n];
     json_dumps := dumps;
     json_loads := loads;
     process_pdf := strategy failing;
     fault := faulty;
     format_parser := parser_value;
     attribute_error := fun _ => py "object has no attribute 'get'";
     fromhex_error := fun _ => py "non-hexadecimal number found in fromhex() arg" |}.

Definition healthy : Env := env false (fun _ => None).

Definition entry_of (status : ProcessingStatus) : gmap string json :=
  <["status" := JStr (status_value status)]> ∅.

(** The errors the validation reports for a parser text outside the
    enumeration. *)
Definition errors (s : pystr) : json :=
  JArr [JObj [("type", JStr (py "enum"));
              ("loc", JArr [JStr (py "body"); JStr (py "parser")]);
              ("msg",
               JStr (py "Input should be 'pypdf', 'gemini_flash' or 'mistral'"));
              ("input", JStr s);
              ("ctx",
               JObj [("expected",
                      JStr (py "'pypdf', 'gemini_flash' or 'mistral'"))])]].

(** A started service: the client is connected, nothing is queued. *)
Definition started : World :=
  mkWorld true [] 0 ∅ ∅ ∅ 0 [].

(** The same with one job registered and one entry waiting. *)
Definition queued (status : ProcessingStatus) (fields : gmap string pystr)
  : World :=
  mkWorld true [fields] 0 ∅ ∅ (<[job := entry_of status]> ∅) 0 [].

Definition fields_of (data : pystr) : gmap string pystr :=
  <["processing_id" := job]> (<["data" := data]> ∅).

End Demo.

Definition exec {A} (m : M A) (w : World) : World := (m w).2.

Definition status_of (w : World) (id : pystr) : option json :=
  processing_status w !! id ≫= (fun entry => entry !! "status").

(** ** Vocabulary of the statements *)

Definition stream_fields (env : Env) (file : UploadFile) (id : pystr)
    (parser : ParserType) : gmap string pystr :=
  <["processing_id" := id]>
    (<["data" := json_dumps env (stream_payload file id parser)]> ∅).

Definition detail (text : string) : json := JObj [("detail", JStr (py text))].

Definition result_key (processing_id : pystr) : pystr :=
  py "result:" ++ processing_id.

(** The ways reading a result can go wrong: the broker call fails, the key
    is absent, the value is empty or is no JSON text. *)
Definition read_fails (env : Env) (w : World) (processing_id : pystr) : Prop :=
  is_Some (fault env (clock w))
  \/ result_store w !! result_key processing_id = None
  \/ (exists seconds, result_store w !! result_key processing_id = Some ([], seconds))
  \/ (exists value seconds msg,
        result_store w !! result_key processing_id = Some (value, seconds)
        /\ json_loads env value = inr msg).

(** *** The worker's steps as changes of the world *)

(** After the worker posted [status_data] for [processing_id]: the request
    is in the log; the register merged the fields when the request got
    through and the id is registered, and is unchanged otherwise. *)
Definition posted (env : Env) (processing_id : pystr)
    (status_data : gmap string json) (w : World) : World :=
  mkWorld (redis_client w) (stream w) (last_delivered w) (pel w)
    (result_store w)
    (match fault env (clock w) with
     | Some _ => processing_status w
     | None =>
         match processing_status w !! processing_id with
         | Some entry =>
             <[processing_id := status_data ∪ entry]> (processing_status w)
         | None => processing_status w
         end
     end)
    (S (clock w))
    (log w ++ [EvUpdateStatus processing_id status_data]).

(** After [XACK] was issued: the entry left the pending entries list
    unless the command failed. *)
Definition acked (env : Env) (message_id : nat) (w : World) : World :=
  mkWorld (redis_client w) (stream w) (last_delivered w)
    (match fault env (clock w) with
     | Some _ => pel w
     | None => pel w ∖ {[message_id]}
     end)
    (result_store w) (processing_status w)
    (S (clock w))
    (log w ++ [EvXAck message_id]).

(** After [SETEX] was issued for the result record. *)
Definition stored (env : Env) (processing_id : pystr) (data : json)
    (w : World) : World :=
  mkWorld (redis_client w) (stream w) (last_delivered w) (pel w)
    (match fault env (clock w) with
     | Some _ => result_store w
     | None =>
         <[result_key processing_id := (json_dumps env data, 86400%Z)]>
           (result_store w)
     end)
    (processing_status w)
    (S (clock w))
    (log w ++ [EvSetEx (result_key processing_id) 86400 (json_dumps env data)]).

(** After the strategy was invoked. *)
Definition invoked (content : bytes) (name : json) (parser : ParserType)
    (w : World) : World :=
  mkWorld (redis_client w) (stream w) (last_delivered w) (pel w)
    (result_store w) (processing_status w)
    (S (clock w))
    (log w ++ [EvProcess content name parser]).

(** *** Reading a stream entry *)

Definition name_of (m : list (string * json)) : json :=
  default JNull (assoc "filename" m).

Definition content_of (m : list (string * json)) : json :=
  default JNull (assoc "content" m).

Definition parser_of (m : list (string * json)) : ParserType :=
  default PYPDF (ParserType_of (default (JStr (py "pypdf")) (assoc "parser" m))).

(** The entry carries a job id and a payload. *)
Definition carries (fields : gmap string pystr) (processing_id data_json : pystr)
  : Prop :=
  fields !! "processing_id" = Some processing_id /\ processing_id <> []
  /\ fields !! "data" = Some data_json /\ data_json <> [].

(** The entry is well formed: it carries a job id and a payload that
    decodes to an object with a file name and a hexadecimal content. *)
Definition readable (env : Env) (fields : gmap string pystr)
    (processing_id : pystr) (m : list (string * json)) (content : bytes)
  : Prop :=
  (exists data_json,
     carries fields processing_id data_json
     /\ json_loads env data_json = inl (JObj m))
  /\ truthy (name_of m) = true
  /\ (exists content_hex,
        content_of m = JStr content_hex /\ content_hex <> []
        /\ fromhex content_hex = Some content).

(** The entry is structurally incomplete: the job id or the payload is
    missing or empty, or the payload decodes to an object that lacks a file
    name or a content. *)
Definition incomplete (env : Env) (fields : gmap string pystr) : Prop :=
  field_missing (fields !! "processing_id") = true
  \/ field_missing (fields !! "data") = true
  \/ (exists processing_id data_json m,
        carries fields processing_id data_json
        /\ json_loads env data_json = inl (JObj m)
        /\ (truthy (name_of m) = false \/ truthy (content_of m) = false)).

(** All the texts of a strategy result are Python strings. *)
Definition wf_result (r : ProcessingResult) : Prop :=
  wf_pystr (text (extraction r)) /\ wf_pystr (markdown (extraction r))
  /\ wf_pystr (summary (analysis r))
  /\ Forall wf_pystr (key_points (analysis r))
  /\ Forall wf_pystr (topics (analysis r)).

Definition scrub (s : pystr) : pystr := List.map replace_cp s.

(** The record the worker stores and the result it embeds in the status. *)
Definition stored_record_of (r : ProcessingResult) : json :=
  JObj [("markdown", JStr (scrub (markdown (extraction r))));
        ("summary", JStr (scrub (summary (analysis r))));
        ("parser_used", JStr (parser_value (parser_used r)));
        ("filename", JStr (filename r));
        ("processing_time", JFloat (processing_time r))].

Definition embedded_result_of (r : ProcessingResult) : json :=
  JObj [("extraction",
         JObj [("text", JStr (scrub (text (extraction r))));
               ("markdown", JStr (scrub (markdown (extraction r))));
               ("page_count", JInt (page_count (extraction r)));
               ("metadata", metadata (extraction r));
               ("parser_used",
                JStr (parser_value (extraction_parser_used (extraction r))))]);
        ("analysis",
         JObj [("summary", JStr (scrub (summary (analysis r))));
               ("key_points",
                JArr (JStr <$> (scrub <$> key_points (analysis r))));
               ("sentiment",
                match sentiment (analysis r) with
                | Some s => JStr s
                | None => JNull
                end);
               ("topics",
                JArr (JStr <$> (scrub <$> topics (analysis r))));
               ("confidence_score",
                match confidence_score (analysis r) with
                | Some x => JFloat x
                | None => JNull
                end)]);
        ("processing_time", JFloat (processing_time r));
        ("filename", JStr (filename r));
        ("parser_used", JStr (parser_value (parser_used r)))].

(** The fields the worker posts when it starts on a job and when it is
    done with it. *)
Definition processing_fields : gmap string json :=
  <["status" := JStr (py "processing")]>
    (<["message" := JStr (py "Processing PDF...")]> ∅).

Definition completed_fields (r : ProcessingResult) : gmap string json :=
  <["status" := JStr (py "completed")]>
    (<["message" := JStr (py "PDF processing completed successfully")]>
      (<["parser" := JStr (parser_value (parser_used r))]>
        (<["result" := embedded_result_of r]> ∅))).

(** The statuses the worker posted, in order. *)
Definition sent_statuses (l : list Event) : list (option json) :=
  omap (fun e =>
          match e with
          | EvUpdateStatus _ status_data => Some (status_data !! "status")
          | _ => None
          end) l.

Definition status (s : ProcessingStatus) : option json :=
  Some (JStr (status_value s)).




(** The payload of the entry cannot be decoded although the entry carries
    a job id and a payload; [e] is the exception the decoding raises. *)
Definition undecodable (env : Env) (fields : gmap string pystr)
    (processing_id : pystr) (e : exn) : Prop :=
  exists data_json,
    carries fields processing_id data_json
    /\ ((exists msg, json_loads env data_json = inr msg /\ e = Exception msg)
        \/ (exists v, json_loads env data_json = inl v
                      /\ (forall m, v <> JObj m)
                      /\ e = Exception (attribute_error env v))
        \/ (exists m, json_loads env data_json = inl (JObj m)
                      /\ truthy (name_of m) = true
                      /\ truthy (content_of m) = true
                      /\ (forall s, content_of m = JStr s -> fromhex s = None)
                      /\ e = Exception (fromhex_error env (content_of m)))).

(** Cleaning a list of texts, as a plain function. *)
Fixpoint clean_all (l : list pystr) : option (list pystr) :=
  match l with
  | [] => Some []
  | s :: l' =>
      match clean s, clean_all l' with
      | Some s', Some r => Some (s' :: r)
      | _, _ => None
      end
  end.

(** The five cleaning steps of the worker on a strategy result: the stored
    record and the embedded result they lead to, or [None] when one of the
    decodings raises. *)
Definition cleaned (r : ProcessingResult) : option (json * json) :=
  match clean (text (extraction r)), clean (markdown (extraction r)),
        clean (summary (analysis r)),
        clean_all (key_points (analysis r)), clean_all (topics (analysis r))
  with
  | Some t, Some md, Some sm, Some kp, Some tp =>
      Some (result_record md sm r, full_result t md sm kp tp r)
  | _, _, _, _, _ => None
  end.

Definition decode_error : exn := Exception (py "'utf-8' codec can't decode").

(** What one call of [_process_message] adds to the log, the final
    acknowledgment apart: nothing is delivered or acknowledged, and the
    statuses posted follow one of four patterns. *)
Definition status_patterns : list (list (option json)) :=
  [ [];
    [status FAILED];
    [status PROCESSING; status COMPLETED];
    [status PROCESSING; status FAILED] ].

Definition quiet (e : Event) : bool :=
  match e with
  | EvDeliver _ | EvXAck _ => false
  | _ => true
  end.

(** The members of the payloads of the concrete environment. *)
Definition demo_members (parser : pystr) : list (string * json) :=
  [("filename", JStr (py "a.pdf"));
   ("content", JStr (hex (upload_content Demo.a_pdf)));
   ("processing_id", JStr Demo.job);
   ("parser", JStr parser)].

Definition good_fields : gmap string pystr :=
  Demo.fields_of (Demo.dumps (Demo.payload (py "pypdf"))).

Definition odd_fields : gmap string pystr :=
  Demo.fields_of (Demo.dumps (Demo.payload (py "tesseract"))).

(** *** The discipline of deliveries and acknowledgments *)


(** The log of a run of the loop from cursor [c] to cursor [c']: for each
    entry in turn its delivery, the calls of its processing, its
    acknowledgment. *)
Inductive rounds : nat -> list Event -> nat -> Prop :=
  | rounds_done (c : nat) : rounds c [] c
  | rounds_entry (c : nat) (l rest : list Event) (c' : nat) :
      forallb quiet l = true ->
      rounds (S c) rest c' ->
      rounds c (EvDeliver c :: l ++ EvXAck c :: rest) c'.

(** [v[key]] for a document that is an object. *)
Definition member (key : string) (v : json) : option json :=
  match v with JObj m => assoc key m | _ => None end.

(** The sentiment in the result that the register shows for a job. *)
Definition shown_sentiment (w : World) (processing_id : pystr) : option json :=
  match processing_status w !! processing_id with
  | Some entry =>
      match entry !! "result" with
      | Some result =>
          match member "analysis" result with
          | Some analysis_ => member "sentiment" analysis_
          | None => None
          end
      | None => None
      end
  | None => None
  end.

(** A strategy result whose sentiment holds a lone surrogate, and an
    environment whose strategy returns it. *)
Definition raw_result : ProcessingResult :=
  {| extraction := extraction (Demo.a_result PYPDF);
     analysis :=
       {| summary := py "A greeting";
          key_points := [py "hello"];
          sentiment := Some (py "neutral" ++ [0xDC00]);
          topics := [py "document"];
          confidence_score := None |};
     processing_time := 0;
     filename := py "a.pdf";
     parser_used := PYPDF |}.

Definition raw_env : Env :=
  {| uuid4 := uuid4 Demo.healthy;
     json_dumps := Demo.dumps;
     json_loads := Demo.loads;
     process_pdf := fun _ _ _ _ => inl raw_result;
     fault := fun _ => None;
     format_parser := parser_value;
     attribute_error := attribute_error Demo.healthy;
     fromhex_error := fromhex_error Demo.healthy |}.

(** ** The other endpoints of [main.py] and [RedisService.ping] *)

(** [RedisService.ping] *)
Definition ping (env : Env) : M bool :=
  require_client;;
  outgoing env;;
  ret true.

(** [GET /health] *)
Definition health_check (env : Env) : M json :=
  try_except
    (ping env;;
     ret (JObj [("status", JStr (py "healthy"));
                ("redis", JStr (py "connected"))]))
    (fun e =>
       ret (JObj [("status", JStr (py "unhealthy"));
                  ("redis", JStr (py "disconnected"));
                  ("error", JStr (str_exn e))])).

(** [ProcessingStatus(v)] *)
Definition ProcessingStatus_of (v : json) : option ProcessingStatus :=
  match v with
  | JStr s =>
      if bool_decide (s = py "pending") then Some PENDING
      else if bool_decide (s = py "processing") then Some PROCESSING
      else if bool_decide (s = py "completed") then Some COMPLETED
      else if bool_decide (s = py "failed") then Some FAILED
      else None
  | _ => None
  end.

(** What the validation of a model does with a value offered for a field
    of type [str] or [Dict[str, Any]], and the text of its error.  A [str]
    is a valid [str] and a [dict] a valid [Dict[str, Any]] ([validates]);
    what else is accepted is left to the library. *)
Record Validation := {
  as_str : json -> option pystr;
  as_dict : json -> option json;
  validation_error : pystr
}.

Definition validates (V : Validation) : Prop :=
  (forall s, as_str V (JStr s) = Some s)
  /\ (forall m, as_dict V (JObj m) = Some (JObj m)).

(** [PDFProcessingResponse(processing_id=..., status=..., message=...,
    parser=..., result=...)], as the endpoint returns it: the status is a
    member of [ProcessingStatus], the parser is absent or a member of
    [ParserType], the result is absent or a dictionary. *)
Definition PDFProcessingResponse (V : Validation) (processing_id : pystr)
    (status_ message parser result : json) : M json :=
  match ProcessingStatus_of status_,
        as_str V message,
        match parser with
        | JNull => Some JNull
        | v => (fun p => JStr (parser_value p)) <$> ParserType_of v
        end,
        match result with
        | JNull => Some JNull
        | v => as_dict V v
        end
  with
  | Some s, Some msg, Some p, Some r =>
      ret (JObj [("processing_id", JStr processing_id);
                 ("status", JStr (status_value s));
                 ("message", JStr msg);
                 ("parser", p);
                 ("result", r)])
  | _, _, _, _ => raise (Exception (validation_error V))
  end.

(** [GET /status/{processing_id}]; an entry without the key [status]
    raises [KeyError]. *)
Definition get_processing_status (V : Validation) (processing_id : pystr)
  : M json :=
  w ← get_world;
  match processing_status w !! processing_id with
  | None => raise (HTTPException 404 (py "Processing ID not found"))
  | Some status_data =>
      match status_data !! "status" with
      | None => raise (Exception (py "'status'"))
      | Some status_ =>
          PDFProcessingResponse V processing_id status_
            (default (JStr []) (status_data !! "message"))
            (default JNull (status_data !! "parser"))
            (default JNull (status_data !! "result"))
      end
  end.

(** *** Vocabulary of the further statements *)

(** A character that stands for itself in the path of a URL and does not
    end a segment of it: an ASCII letter or digit, [-] or [_]. *)
Definition url_plain (c : N) : bool :=
  (48 <=? c) && (c <=? 57) || (65 <=? c) && (c <=? 90)
  || (97 <=? c) && (c <=? 122) || (c =? 45) || (c =? 95).

(** A validation for running the model: it accepts what [validates] asks
    for and nothing else. *)
Definition strict : Validation :=
  {| as_str := fun v => match v with JStr s => Some s | _ => None end;
     as_dict := fun v => match v with JObj m => Some (JObj m) | _ => None end;
     validation_error := py "validation error" |}.

(** The ids delivered in a log, in order. *)
Definition deliveries (l : list Event) : list nat :=
  omap (fun e => match e with EvDeliver m => Some m | _ => None end) l.

(** The world differs from another one by its clock and its log only. *)
Definition same_state (w w' : World) : Prop :=
  redis_client w' = redis_client w /\ stream w' = stream w
  /\ last_delivered w' = last_delivered w /\ pel w' = pel w
  /\ result_store w' = result_store w
  /\ processing_status w' = processing_status w.

(** The codec gives back the document it wrote, from a text that is not
    empty. *)
Definition decodes_back (env : Env) (j : json) : Prop :=
  json_dumps env j <> [] /\ json_loads env (json_dumps env j) = inl j.

(** The world after the broker delivered the entry at the cursor. *)
Definition delivered (w : World) : World :=
  mkWorld (redis_client w) (stream w) (last_delivered w + 1)
    (pel w ∪ {[last_delivered w]})
    (result_store w) (processing_status w) (S (clock w))
    (log w ++ [EvDeliver (last_delivered w)]).

(** The keys of a register entry the worker writes. *)
Definition worker_keys : list string := ["status"; "message"; "parser"; "result"].

(** What handling an entry of job [processing_id] may change: the client,
    the stream and the cursor stay; the register keeps its ids, the
    entries of the other jobs, and in the entry of the job every key the
    worker does not write; the result store keeps the results of the other
    jobs. *)
Definition touches_only (processing_id : option pystr) (w w' : World) : Prop :=
  redis_client w' = redis_client w /\ stream w' = stream w
  /\ last_delivered w' = last_delivered w
  /\ (forall id, processing_id <> Some id ->
        processing_status w' !! id = processing_status w !! id
        /\ result_store w' !! result_key id = result_store w !! result_key id)
  /\ (forall id,
        match processing_status w !! id, processing_status w' !! id with
        | Some entry, Some entry' =>
            forall k, k ∉ worker_keys -> entry' !! k = entry !! k
        | None, None => True
        | _, _ => False
        end).

(** The members of the payload the gateway writes. *)
Definition payload_members (file : UploadFile) (processing_id : pystr)
    (parser : ParserType) : list (string * json) :=
  [("filename", JStr (upload_filename file));
   ("content", JStr (hex (upload_content file)));
   ("processing_id", JStr processing_id);
   ("parser", JStr (parser_value parser))].

(** The world after [upload_pdf] registered the job and appended its
    entry. *)
Definition submitted (env : Env) (file : UploadFile) (parser : ParserType)
    (w : World) : World :=
  let id := uuid4 env (clock w) in
  mkWorld (redis_client w)
    (stream w ++ [stream_fields env file id parser])
    (last_delivered w) (pel w) (result_store w)
    (<[id := pending_entry env file parser]> (processing_status w))
    (S (S (clock w)))
    (log w ++ [EvUuid id; EvSetStatus id (pending_entry env file parser);
               EvXAdd (stream_fields env file id parser)]).

(** The world after a turn of the loop handled the entry of a job that the
    gateway just submitted. *)
Definition handled (env : Env) (file : UploadFile) (parser : ParserType)
    (w : World) : World :=
  exec (upload_pdf env file parser;; consume_once env) w.

(** The body of [GET /status]. *)
Definition status_body (processing_id : pystr) (status_ : ProcessingStatus)
    (message : pystr) (parser result : json) : json :=
  JObj [("processing_id", JStr processing_id);
        ("status", JStr (status_value status_));
        ("message", JStr message);
        ("parser", parser);
        ("result", result)].

(** The body of [GET /results] for a stored object. *)
Definition results_body (processing_id : pystr) (m : list (string * json))
  : json :=
  JObj [("processing_id", JStr processing_id);
        ("markdown", default (JStr []) (assoc "markdown" m));
        ("summary", default (JStr []) (assoc "summary" m));
        ("parser_used", default (JStr (py "unknown")) (assoc "parser_used" m));
        ("filename", default (JStr []) (assoc "filename" m));
        ("processing_time", default (JInt 0) (assoc "processing_time" m))].

(** What [get_result] finds under the key of the job: the decoded value,
    when the client is set, the command goes through, the value is not
    empty and decodes. *)
Definition found (env : Env) (w : World) (processing_id : pystr) (v : json)
  : Prop :=
  redis_client w = true /\ fault env (clock w) = None
  /\ exists c s seconds,
       result_store w !! result_key processing_id = Some (c :: s, seconds)
       /\ json_loads env (c :: s) = inl v.

Definition is_object (v : json) : bool :=
  match v with JObj _ => true | _ => false end.

(** An ASCII digit of the lowercase hexadecimal notation. *)
Definition lower_hex (c : N) : Prop := 48 <= c <= 57 \/ 97 <= c <= 102.
(** * Properties *)

(** ** Strings and bytes *)

Lemma byte_of_to_N (n : N) : n < 256 -> Byte.to_N (byte_of n) = n.
Proof.
  intros Hn. unfold byte_of.
  destruct (Byte.of_N n) as [b|] eqn:E.
  - now apply Byte.to_of_N.
  - apply Byte.of_N_None_iff in E. lia.
Qed.

Lemma fromhex_hex_byte (b : byte) (rest : pystr) :
  fromhex (hex_byte b ++ rest) =
  match fromhex rest with Some bs => Some (b :: bs) | None => None end.
Proof. destruct b; reflexivity. Qed.

Lemma fromhex_hex (bs : bytes) : fromhex (hex bs) = Some bs.
Proof.
  induction bs as [|b bs IH]; [reflexivity|].
  change (hex (b :: bs)) with (hex_byte b ++ hex bs).
  now rewrite fromhex_hex_byte, IH.
Qed.

Ltac Zify.zify_post_hook ::= Z.to_euclidean_division_equations.

Ltac n_cases :=
  repeat match goal with
    | H : (_ <? _) = true |- _ => apply N.ltb_lt in H
    | H : (_ <? _) = false |- _ => apply N.ltb_ge in H
    | H : (_ <=? _) = true |- _ => apply N.leb_le in H
    | H : (_ <=? _) = false |- _ => apply N.leb_gt in H
    | H : (_ && _) = true |- _ => apply andb_true_iff in H; destruct H
    | H : (_ && _) = false |- _ => apply andb_false_iff in H; destruct H
    end.

(** Decide the comparisons of the goal by linear arithmetic. *)
Ltac pick_branch :=
  match goal with
  | |- context [?a <? ?b] =>
      first [ rewrite (proj2 (N.ltb_lt a b)) by lia
            | rewrite (proj2 (N.ltb_ge a b)) by lia ]
  | |- context [?a <=? ?b] =>
      first [ rewrite (proj2 (N.leb_le a b)) by lia
            | rewrite (proj2 (N.leb_gt a b)) by lia ]
  end.

Lemma decode_utf8_cons (b0 : byte) (r0 : bytes) :
  decode_utf8 (b0 :: r0) =
  let n0 := Byte.to_N b0 in
  if n0 <? 0x80 then cons_cp n0 (decode_utf8 r0)
  else if n0 <? 0xC2 then None
  else if n0 <? 0xE0 then
    match r0 with
    | b1 :: r1 =>
        if is_cont b1
        then cons_cp ((n0 - 0xC0) * 64 + cont b1) (decode_utf8 r1)
        else None
    | _ => None
    end
  else if n0 <? 0xF0 then
    match r0 with
    | b1 :: b2 :: r2 =>
        let c := (n0 - 0xE0) * 4096 + cont b1 * 64 + cont b2 in
        if is_cont b1 && is_cont b2 && (0x800 <=? c) && negb (is_surrogate c)
        then cons_cp c (decode_utf8 r2)
        else None
    | _ => None
    end
  else if n0 <? 0xF5 then
    match r0 with
    | b1 :: b2 :: b3 :: r3 =>
        let c := (n0 - 0xF0) * 262144 + cont b1 * 4096
                 + cont b2 * 64 + cont b3 in
        if is_cont b1 && is_cont b2 && is_cont b3
           && (0x10000 <=? c) && (c <? 0x110000)
        then cons_cp c (decode_utf8 r3)
        else None
    | _ => None
    end
  else None.
Proof. reflexivity. Qed.

Lemma decode_encode_cp (c : N) (rest : bytes) :
  c < 0x110000 ->
  decode_utf8 (encode_cp c ++ rest) = cons_cp (replace_cp c) (decode_utf8 rest).
Proof.
  intros Hc. unfold encode_cp, replace_cp, is_surrogate.
  destruct (c <? 0x80) eqn:E1; [|destruct (c <? 0x800) eqn:E2;
    [|destruct ((0xD800 <=? c) && (c <=? 0xDFFF)) eqn:E3;
      [|destruct (c <? 0x10000) eqn:E4]]];
    n_cases; cbn [app]; rewrite decode_utf8_cons; cbv beta iota zeta;
    unfold is_cont, cont, is_surrogate, placeholder;
    repeat rewrite byte_of_to_N by lia;
    repeat pick_branch; cbn [andb negb]; try reflexivity; f_equal; lia.
Qed.

Lemma decode_encode (s : pystr) :
  wf_pystr s -> clean s = Some (List.map replace_cp s).
Proof.
  unfold clean. induction 1 as [|c s Hc _ IH]; [reflexivity|].
  change (encode_utf8_replace (c :: s)) with (encode_cp c ++ encode_utf8_replace s).
  rewrite decode_encode_cp, IH by exact Hc. reflexivity.
Qed.

(** ** Hexadecimal transport of the content *)

(** Claim C4. Whatever the submitted bytes are (none, zero bytes, bytes that
    are no UTF-8), the lowercase hexadecimal text the gateway puts into the
    payload is turned back into exactly these bytes by [bytes.fromhex], and
    so the worker's decoding step, applied to the [content] member of the
    gateway's payload, returns the submitted content without raising. *)
Theorem hex_roundtrip (env : Env) (file : UploadFile) (processing_id : pystr)
    (parser : ParserType) (w : World) :
  fromhex (hex (upload_content file)) = Some (upload_content file)
  /\ (content_hex ← data_get env (stream_payload file processing_id parser)
                      "content" JNull;
      bytes_fromhex env content_hex) w
     = (Return (upload_content file), w).
Proof.
  split; [apply fromhex_hex|].
  cbn. unfold mbind, M_bind, bind. cbn.
  now rewrite fromhex_hex.
Qed.

(** ** The submission gateway *)

Ltac mred :=
  cbv beta iota zeta delta
    [mbind M_bind mret M_ret bind ret raise try_except emit tick get_world
     set_stream set_group set_result_store set_processing_status
     redis_client stream last_delivered pel result_store processing_status
     clock log fst snd exec].

(** The entry the gateway writes has status [pending]. *)
Lemma pending_entry_status (env : Env) (file : UploadFile) (parser : ParserType) :
  pending_entry env file parser !! "status" = Some (JStr (py "pending")).
Proof. unfold pending_entry. now rewrite lookup_insert_eq. Qed.

(** With a [.pdf] name, a connected client and a working append, the
    body of [upload_pdf] returns the response for the new job. *)
Lemma upload_pdf_accepted (env : Env) (file : UploadFile)
    (parser : ParserType) (w : World) :
  endswith (upload_filename file) (py ".pdf") = true ->
  redis_client w = true -> fault env (S (clock w)) = None ->
  exists body w',
    upload_pdf env file parser w = (Return (JObj body), w')
    /\ assoc "processing_id" body = Some (JStr (uuid4 env (clock w))).
Proof.
  intros Hpdf. destruct w as [rc st ld pl rs ps ck lg].
  cbn [redis_client clock]. intros -> Hf.
  unfold upload_pdf. rewrite Hpdf. cbn [negb].
  unfold fresh_uuid, add_to_stream, require_client, xadd, outgoing. mred.
  rewrite Hf. mred. eexists _, _. split; reflexivity.
Qed.

(** Claim C2. For a submission whose file name ends in [.pdf], [upload_pdf]
    performs, in this order, the generation of the job id, the write of the
    [pending] entry under that id and the append to the stream (which is not
    reached when the client is missing).  Whatever the append does, the
    register holds the [pending] entry under the id afterwards; when the
    append succeeds the response carries that id and the stream has the new
    entry; when it fails the call raises, the stream is unchanged and the
    [pending] entry stays. *)
Theorem upload_pdf_pending (env : Env) (file : UploadFile)
    (parser : ParserType) (w : World) :
  endswith (upload_filename file) (py ".pdf") = true ->
  let id := uuid4 env (clock w) in
  let entry := pending_entry env file parser in
  let fields := stream_fields env file id parser in
  let w' := exec (upload_pdf env file parser) w in
  log w' = log w ++ EvUuid id :: EvSetStatus id entry
                 :: (if redis_client w then [EvXAdd fields] else [])
  /\ processing_status w' !! id = Some entry
  /\ status_of w' id = Some (JStr (status_value PENDING))
  /\ (redis_client w = true -> fault env (S (clock w)) = None ->
      (exists body, (upload_pdf env file parser w).1 = Return (JObj body)
                    /\ assoc "processing_id" body = Some (JStr id)
                    /\ assoc "status" body = Some (JStr (status_value PENDING)))
      /\ stream w' = stream w ++ [fields])
  /\ (redis_client w = false \/ fault env (S (clock w)) <> None ->
      (exists e, (upload_pdf env file parser w).1 = Raised e)
      /\ stream w' = stream w).
Proof.
  intros Hpdf id entry fields w'.
  subst w'. unfold status_of, exec, upload_pdf. rewrite Hpdf. cbn [negb].
  destruct w as [rc st ld pl rs ps ck lg].
  unfold fresh_uuid, add_to_stream, require_client, xadd, outgoing. mred.
  subst id entry fields. unfold stream_fields.
  destruct rc; mred.
  - destruct (fault env (S ck)) as [msg|] eqn:Hf; mred;
      rewrite <- ?app_assoc; cbn [app];
      rewrite lookup_insert_eq; cbn [mbind option_bind];
      rewrite (pending_entry_status env file parser);
      (split; [reflexivity|]); (split; [reflexivity|]); (split; [reflexivity|]);
      split.
    + congruence.
    + intros _. split; [eauto|reflexivity].
    + intros _ _. split; [|reflexivity].
      eexists. repeat split; reflexivity.
    + intros [H|H]; congruence.
  - rewrite <- ?app_assoc; cbn [app];
      rewrite lookup_insert_eq; cbn [mbind option_bind];
      rewrite (pending_entry_status env file parser).
    (split; [reflexivity|]); (split; [reflexivity|]); (split; [reflexivity|]);
      split; [congruence|].
    intros _. split; [eauto|reflexivity].
Qed.

(** The theorem at a submission of [a.pdf] to a started service. *)
Lemma upload_pdf_pending_witness :
  endswith (upload_filename Demo.a_pdf) (py ".pdf") = true
  /\ status_of (exec (upload_pdf Demo.healthy Demo.a_pdf PYPDF) Demo.started)
       (uuid4 Demo.healthy 0)
     = Some (JStr (status_value PENDING)).
Proof.
  split; [reflexivity|].
  exact (proj1 (proj2 (proj2
    (upload_pdf_pending Demo.healthy Demo.a_pdf PYPDF Demo.started eq_refl)))).
Defined.

(** Claim C3, as stated, fails: a submission with a [.pdf] name and no
    content at all is accepted, registered as [pending] and appended to the
    stream. *)
Lemma empty_content_accepted :
  upload_content Demo.empty_pdf = []
  /\ (exists body,
        (post_upload_pdf Demo.healthy Demo.errors Demo.empty_pdf None
           Demo.started).1
        = HTTPResponse 200 body)
  /\ length (stream (post_upload_pdf Demo.healthy Demo.errors Demo.empty_pdf
                       None Demo.started).2) = 1%nat
  /\ status_of (post_upload_pdf Demo.healthy Demo.errors Demo.empty_pdf None
                  Demo.started).2 (py "job-0")
     = Some (JStr (status_value PENDING)).
Proof.
  split; [reflexivity|]. split; [eexists; vm_compute; reflexivity|].
  split; vm_compute; reflexivity.
Qed.

(** Claim C3, amended. The parser of the form is bound first: a text that
    is not empty and outside the enumeration is refused (422, with the
    errors of the validation) before the body runs, whatever the file name,
    and nothing is written; an absent or empty one is the baseline
    [pypdf], and a member's value selects that member.  A submission whose
    parser is bound is answered 400, and nothing is written, when the file
    name does not end in [.pdf].  The content is not examined: with a
    [.pdf] name, a connected client and a working append, the submission
    is accepted whatever the content is, the empty one included. *)
Theorem upload_validation (env : Env) (errors : pystr -> json)
    (file : UploadFile) (w : World) :
  (forall s, s <> [] -> ParserType_of (JStr s) = None ->
     post_upload_pdf env errors file (Some s) w
     = (HTTPResponse 422 (JObj [("detail", errors s)]), w))
  /\ post_upload_pdf env errors file None w
     = serve (upload_pdf env file PYPDF) w
  /\ post_upload_pdf env errors file (Some []) w
     = serve (upload_pdf env file PYPDF) w
  /\ (forall parser,
        post_upload_pdf env errors file (Some (parser_value parser)) w
        = serve (upload_pdf env file parser) w)
  /\ (endswith (upload_filename file) (py ".pdf") = false ->
      (forall parser,
         serve (upload_pdf env file parser) w
         = (HTTPResponse 400 (detail "Only PDF files are allowed"), w))
      /\ (forall parser_field,
            (forall s, parser_field = Some s -> s <> [] ->
                       is_Some (ParserType_of (JStr s))) ->
            post_upload_pdf env errors file parser_field w
            = (HTTPResponse 400 (detail "Only PDF files are allowed"), w)))
  /\ (endswith (upload_filename file) (py ".pdf") = true ->
      redis_client w = true -> fault env (S (clock w)) = None ->
      forall parser, exists body w',
        serve (upload_pdf env file parser) w = (HTTPResponse 200 body, w')).
Proof.
  assert (H400 : endswith (upload_filename file) (py ".pdf") = false ->
                 forall parser,
                   serve (upload_pdf env file parser) w
                   = (HTTPResponse 400 (detail "Only PDF files are allowed"), w)).
  { intros H parser. unfold serve, upload_pdf. rewrite H. reflexivity. }
  split; [|split; [|split; [|split; [|split]]]].
  - intros [|c s] Hne Hs; [congruence|].
    unfold post_upload_pdf. now rewrite Hs.
  - reflexivity.
  - reflexivity.
  - intros []; reflexivity.
  - intros H. split; [exact (H400 H)|].
    intros [[|c s]|] Hp; cbn [post_upload_pdf]; try apply (H400 H).
    destruct (Hp (c :: s) eq_refl ltac:(discriminate)) as [p Hs].
    rewrite Hs. apply (H400 H).
  - intros Hpdf Hrc Hf parser.
    destruct (upload_pdf_accepted env file parser w Hpdf Hrc Hf)
      as (body & w' & Hrun & _).
    unfold serve. rewrite Hrun. eauto.
Qed.

(** The theorem at a submission without content. *)
Lemma upload_validation_witness :
  exists body w',
    serve (upload_pdf Demo.healthy Demo.empty_pdf MISTRAL) Demo.started
    = (HTTPResponse 200 body, w').
Proof.
  exact (proj2 (proj2 (proj2 (proj2 (proj2
    (upload_validation Demo.healthy Demo.errors Demo.empty_pdf
       Demo.started)))))
    eq_refl eq_refl eq_refl MISTRAL).
Defined.

(** Claim C7, as stated, fails at the gateway: a submission whose parser
    text is outside the enumeration is refused, and nothing is registered
    or appended. *)
Lemma unknown_parser_refused :
  ParserType_of (JStr (py "tesseract")) = None
  /\ post_upload_pdf Demo.healthy Demo.errors Demo.a_pdf
       (Some (py "tesseract")) Demo.started
     = (HTTPResponse 422 (JObj [("detail", Demo.errors (py "tesseract"))]),
        Demo.started).
Proof. split; reflexivity. Qed.

(** Claim C8, as stated, fails: the status endpoint moves a job that is
    [completed] back to [processing]. *)
Lemma terminal_status_overwritten :
  let w := Demo.queued COMPLETED ∅ in
  status_of w Demo.job = Some (JStr (status_value COMPLETED))
  /\ status_of
       (serve (update_processing_status Demo.job (Demo.entry_of PROCESSING)) w).2
       Demo.job
     = Some (JStr (status_value PROCESSING)).
Proof. split; vm_compute; reflexivity. Qed.

(** ** Reading results *)

(** The commands of the result store and [GET /results], as steps. *)

Lemma store_result_run (env : Env) (id : pystr) (data : json) (seconds : Z)
    (w : World) :
  redis_client w = true -> fault env (clock w) = None ->
  store_result env id data seconds w
  = (Return tt,
     mkWorld true (stream w) (last_delivered w) (pel w)
       (<[result_key id := (json_dumps env data, seconds)]> (result_store w))
       (processing_status w) (S (clock w))
       (log w ++ [EvSetEx (result_key id) seconds (json_dumps env data)])).
Proof.
  destruct w as [rc st ld pl rs ps ck lg]. cbn [redis_client clock].
  intros -> Hf. unfold store_result, require_client, setex, outgoing. mred.
  rewrite Hf. reflexivity.
Qed.

Lemma get_result_run (env : Env) (id : pystr) (w : World) :
  redis_client w = true -> fault env (clock w) = None ->
  get_result env id w
  = (Return
       match result_store w !! result_key id with
       | Some (c :: s, _) =>
           match json_loads env (c :: s) with
           | inl v => Some v
           | inr _ => None
           end
       | _ => None
       end,
     mkWorld true (stream w) (last_delivered w) (pel w) (result_store w)
       (processing_status w) (S (clock w)) (log w ++ [EvGet (result_key id)])).
Proof.
  destruct w as [rc st ld pl rs ps ck lg]. cbn [redis_client clock].
  intros -> Hf. unfold get_result, require_client, redis_get, outgoing. mred.
  rewrite Hf. mred. fold (result_key id).
  destruct (rs !! result_key id) as [[[|c s] seconds]|];
    cbn [fmap option_fmap option_map fst]; mred; try reflexivity.
  destruct (json_loads env (c :: s)); reflexivity.
Qed.

Lemma get_processing_results_run (env : Env) (id : pystr) (w : World)
    (v : json) :
  found env w id v ->
  exists w',
    same_state w w'
    /\ serve (get_processing_results env id) w
       = (match v with
          | JObj (kv :: m) => HTTPResponse 200 (results_body id (kv :: m))
          | _ =>
              if truthy v
              then HTTPResponse 500
                     (JObj [("detail",
                             JStr (py "Failed to retrieve results: "
                                   ++ attribute_error env v))])
              else HTTPResponse 404 (detail "Results not found or expired")
          end, w').
Proof.
  intros (Hrc & Hf & c & s & seconds & Hst & Hload).
  unfold serve, get_processing_results, try_except, mbind, M_bind, bind.
  rewrite (get_result_run env id w Hrc Hf), Hst, Hload.
  destruct w as [rc st ld pl rs ps ck lg]. cbn [redis_client] in Hrc.
  subst rc. eexists. split; [|cbn [fst snd of_option]].
  2: { destruct v as [| [|] | z | x | [|c' s'] | [|a l] | [|kv m]];
       cbn [truthy negb of_option]; unfold results_get; mred;
       try reflexivity.
       - destruct (z =? 0)%Z; reflexivity.
       - destruct (Qeq_bool x 0); reflexivity. }
  repeat split.
Qed.

Lemma get_processing_results_no_client (env : Env) (id : pystr) (w : World) :
  redis_client w = false ->
  serve (get_processing_results env id) w
  = (HTTPResponse 500
       (detail "Failed to retrieve results: Redis client not initialized"),
     w).
Proof.
  destruct w as [rc st ld pl rs ps ck lg]. cbn [redis_client]. intros ->.
  reflexivity.
Qed.

(** Claim C10, as stated, fails: with the client missing [get_result]
    raises, and [GET /results] answers 500, not 404. *)
Lemma results_without_client :
  let w := mkWorld false [] 0 ∅ ∅ ∅ 0 [] in
  (get_result Demo.healthy Demo.job w).1
  = Raised (Exception (py "Redis client not initialized"))
  /\ (serve (get_processing_results Demo.healthy Demo.job) w).1
     = HTTPResponse 500
         (detail "Failed to retrieve results: Redis client not initialized").
Proof. split; reflexivity. Qed.

(** Claim C10, amended. With the client connected, [get_result] returns
    for every job id and never raises; when reading fails (a broker error,
    an absent or expired key, an empty value, a value that is no JSON) it
    returns nothing and [GET /results] answers 404, the same answer as for
    a key that was never written.  With the client missing [get_result]
    raises, and [GET /results] answers 500 with the text of the error; it
    answers 500 too when the value read decodes to a document that is true
    without being an object. *)
Theorem get_result_not_found (env : Env) (processing_id : pystr) (w : World) :
  (redis_client w = true ->
   (exists r w', get_result env processing_id w = (Return r, w'))
   /\ (read_fails env w processing_id ->
       (get_result env processing_id w).1 = Return None
       /\ (serve (get_processing_results env processing_id) w).1
          = HTTPResponse 404 (detail "Results not found or expired")))
  /\ (redis_client w = false ->
      (get_result env processing_id w).1
      = Raised (Exception (py "Redis client not initialized"))
      /\ (serve (get_processing_results env processing_id) w).1
         = HTTPResponse 500
             (detail "Failed to retrieve results: Redis client not initialized"))
  /\ (forall v,
        found env w processing_id v -> truthy v = true ->
        is_object v = false ->
        (get_result env processing_id w).1 = Return (Some v)
        /\ (serve (get_processing_results env processing_id) w).1
           = HTTPResponse 500
               (JObj [("detail",
                       JStr (py "Failed to retrieve results: "
                             ++ attribute_error env v))])).
Proof.
  split; [|split].
  - destruct w as [rc st ld pl rs ps ck lg]. cbn [redis_client]. intros ->.
    unfold read_fails, serve, get_processing_results, get_result,
      require_client, redis_get, outgoing, result_key.
    mred.
    destruct (fault env ck) as [msg|] eqn:Hf; mred.
    + split; [eauto|]. intros _. split; reflexivity.
    + destruct (rs !! (py "result:" ++ processing_id))
        as [[value seconds]|] eqn:Hv;
        cbn [fmap option_fmap option_map fst]; mred.
      * destruct value as [|c s]; mred.
        -- split; [eauto|]. intros _. split; reflexivity.
        -- destruct (json_loads env (c :: s)) as [v|msg] eqn:Hl; mred.
           ++ split; [eauto|].
              intros [[? H]|[H|[[? H]|(? & ? & ? & H & H')]]];
                try discriminate.
              injection H as <- <-. congruence.
           ++ split; [eauto|]. intros _. split; reflexivity.
      * split; [eauto|]. intros _. split; reflexivity.
  - intros Hrc. split.
    + destruct w as [rc st ld pl rs ps ck lg]. cbn [redis_client] in Hrc.
      subst rc. reflexivity.
    + now rewrite get_processing_results_no_client.
  - intros v Hv Ht Ho. split.
    + destruct Hv as (Hrc & Hf & c0 & s0 & seconds & Hst & Hl).
      now rewrite (get_result_run env processing_id w Hrc Hf), Hst, Hl.
    + destruct (get_processing_results_run env processing_id w v Hv)
        as (w' & _ & Hserve).
      rewrite Hserve. cbn [fst].
      destruct v as [| [|] | z | x | [|c' s'] | [|a l] | [|kv m]];
        try discriminate; try reflexivity; now rewrite Ht.
Qed.

(** The theorem at a stored value that is no JSON. *)
Lemma get_result_not_found_witness :
  (serve (get_processing_results Demo.healthy Demo.job)
     (mkWorld true [] 0 ∅ {[result_key Demo.job := (py "oops", 60%Z)]} ∅ 0 [])).1
  = HTTPResponse 404 (detail "Results not found or expired").
Proof.
  apply (proj1 (get_result_not_found Demo.healthy Demo.job
                  (mkWorld true [] 0 ∅
                     {[result_key Demo.job := (py "oops", 60%Z)]} ∅ 0 []))
           eq_refl).
  right; right; right.
  exists (py "oops"), 60%Z, (py "Expecting value: line 1 column 1 (char 0)").
  split; reflexivity.
Defined.

(** ** The worker *)

Lemma update_status_run (env : Env) (processing_id : pystr)
    (status_data : gmap string json) (w : World) :
  _update_status env processing_id status_data w
  = (Return tt, posted env processing_id status_data w).
Proof.
  destruct w as [rc st ld pl rs ps ck lg].
  unfold _update_status, answered, serve, update_processing_status, outgoing,
    posted.
  mred. destruct (fault env ck); mred; [reflexivity|].
  destruct (ps !! processing_id); reflexivity.
Qed.

Lemma acknowledge_run (env : Env) (message_id : nat) (w : World) :
  redis_client w = true ->
  acknowledge_message env message_id w = (Return tt, acked env message_id w).
Proof.
  destruct w as [rc st ld pl rs ps ck lg]. cbn [redis_client]. intros ->.
  unfold acknowledge_message, require_client, xack, outgoing, acked.
  mred. destruct (fault env ck); reflexivity.
Qed.

Lemma store_run (env : Env) (processing_id : pystr) (data : json) (w : World) :
  redis_client w = true ->
  _store_results_in_redis env processing_id data w
  = (Return tt, stored env processing_id data w).
Proof.
  destruct w as [rc st ld pl rs ps ck lg]. cbn [redis_client]. intros ->.
  unfold _store_results_in_redis, store_result, require_client, setex,
    outgoing, stored, result_key.
  mred. destruct (fault env ck); reflexivity.
Qed.

Lemma clean_str_run (s : pystr) (w : World) :
  wf_pystr s -> clean_str s w = (Return (scrub s), w).
Proof. intros H. unfold clean_str. now rewrite decode_encode. Qed.

Lemma clean_list_run (l : list pystr) (w : World) :
  Forall wf_pystr l -> clean_list l w = (Return (scrub <$> l), w).
Proof.
  induction 1 as [|s l Hs _ IH]; [reflexivity|].
  cbn [clean_list]. mred. rewrite clean_str_run by exact Hs.
  mred. rewrite IH. reflexivity.
Qed.

(** Symbolic execution of the worker on a world given by its fields. *)
Ltac mrun :=
  repeat (mred;
          first [ rewrite update_status_run; unfold posted
                | rewrite acknowledge_run by reflexivity; unfold acked
                | rewrite store_run by reflexivity; unfold stored ]);
  mred.

(** An incomplete entry is acknowledged and nothing else happens. *)
Lemma process_message_dropped (env : Env) (message_id : nat)
    (fields : gmap string pystr) (w : World) :
  redis_client w = true -> incomplete env fields ->
  _process_message env message_id fields w
  = (Return tt, acked env message_id w).
Proof.
  destruct w as [rc st ld pl rs ps ck lg]. cbn [redis_client]. intros ->.
  unfold _process_message.
  intros [H|[H|(pid & text & m & (Hp & Hpne & Hd & Hdne) & Hl & Hm)]].
  - rewrite H. cbn [orb]. mrun. reflexivity.
  - rewrite H, orb_true_r. mrun. reflexivity.
  - rewrite Hp, Hd. destruct pid as [|c pid]; [congruence|].
    destruct text as [|c' text]; [congruence|].
    simpl (field_missing _). simpl (default [] _). cbn [orb]. rewrite Hl.
    unfold data_get. mred. fold (name_of m). fold (content_of m).
    assert (E : negb (truthy (name_of m)) || negb (truthy (content_of m)) = true)
      by (destruct Hm as [-> | ->]; [reflexivity | apply orb_true_r]).
    rewrite E. mrun. reflexivity.
Qed.

Ltac open_entry Hr c pid c' text :=
  let Hp := fresh "Hp" in let Hd := fresh "Hd" in
  let Hpne := fresh "Hpne" in let Hdne := fresh "Hdne" in
  destruct Hr as (Hp & Hpne & Hd & Hdne);
  destruct pid as [|c pid]; [congruence|];
  destruct text as [|c' text]; [congruence|];
  unfold _process_message; rewrite Hp, Hd;
  simpl (field_missing _); simpl (default [] _); cbn [orb].

(** An entry that cannot be decoded is reported as failed and acknowledged. *)
Lemma process_message_undecodable (env : Env) (message_id : nat)
    (fields : gmap string pystr) (processing_id : pystr) (e : exn) (w : World) :
  redis_client w = true -> undecodable env fields processing_id e ->
  _process_message env message_id fields w
  = (Return tt,
     acked env message_id (posted env processing_id (failed_update e) w)).
Proof.
  destruct w as [rc st ld pl rs ps ck lg]. cbn [redis_client]. intros ->.
  intros (dj & Hc & H). open_entry Hc c processing_id c' dj.
  destruct H as [(msg & Hl & ->)|[(v & Hl & Hv & ->)|(m & Hl & Hn & Hct & Hx & ->)]];
    rewrite Hl.
  - mrun. reflexivity.
  - unfold data_get.
    destruct v as [| | | | | |mm]; try (mrun; reflexivity). now destruct (Hv mm).
  - unfold data_get. mred. fold (name_of m). fold (content_of m).
    rewrite Hn, Hct. cbn [negb orb]. unfold bytes_fromhex.
    destruct (content_of m) as [| | | |s| |] eqn:E; try (mrun; reflexivity).
    rewrite (Hx s eq_refl). mrun. reflexivity.
Qed.

Ltac open_readable Hr c pid c' :=
  let text := fresh "dj" in
  let Hc := fresh "Hc" in let Hl := fresh "Hl" in
  let Hn := fresh "Hn" in let hexs := fresh "hexs" in
  let Hct := fresh "Hct" in let Hne := fresh "Hne" in let Hx := fresh "Hx" in
  destruct Hr as ((text & Hc & Hl) & Hn & (hexs & Hct & Hne & Hx));
  open_entry Hc c pid c' text;
  rewrite Hl; unfold data_get; mred;
  match goal with m : list (string * json) |- _ =>
    fold (name_of m); fold (content_of m);
    change (match ParserType_of (default (JStr (py "pypdf")) (assoc "parser" m))
            with Some p => p | None => PYPDF end) with (parser_of m)
  end;
  rewrite Hn, Hct;
  destruct hexs; [congruence|];
  simpl (truthy (JStr _)); cbn [negb orb];
  unfold bytes_fromhex; rewrite Hx.

(** A well-formed entry whose strategy call fails: the job is reported as
    processing, then as failed with the reason, and the entry is
    acknowledged. *)
Lemma process_message_failed (env : Env) (message_id : nat)
    (fields : gmap string pystr) (processing_id : pystr)
    (m : list (string * json)) (content : bytes) (msg : pystr) (w : World) :
  redis_client w = true -> readable env fields processing_id m content ->
  process_pdf env (S (clock w)) content (name_of m) (parser_of m) = inr msg ->
  _process_message env message_id fields w
  = (Return tt,
     acked env message_id
       (posted env processing_id (failed_update (Exception msg))
          (invoked content (name_of m) (parser_of m)
             (posted env processing_id processing_update w)))).
Proof.
  destruct w as [rc st ld pl rs ps ck lg]. cbn [redis_client clock].
  intros -> Hr Hs. open_readable Hr c processing_id c'.
  mrun. unfold call_process_pdf. mred. rewrite Hs. mrun. reflexivity.
Qed.

(** A well-formed entry whose strategy call succeeds: processing, the
    strategy, the result record, completed, the acknowledgment. *)
Lemma process_message_completed (env : Env) (message_id : nat)
    (fields : gmap string pystr) (processing_id : pystr)
    (m : list (string * json)) (content : bytes) (r : ProcessingResult)
    (w : World) :
  redis_client w = true -> readable env fields processing_id m content ->
  process_pdf env (S (clock w)) content (name_of m) (parser_of m) = inl r ->
  wf_result r ->
  _process_message env message_id fields w
  = (Return tt,
     acked env message_id
       (posted env processing_id (completed_update r (embedded_result_of r))
          (stored env processing_id (stored_record_of r)
             (invoked content (name_of m) (parser_of m)
                (posted env processing_id processing_update w))))).
Proof.
  destruct w as [rc st ld pl rs ps ck lg]. cbn [redis_client clock].
  intros -> Hr Hs (Ht & Hmd & Hsm & Hkp & Htp).
  open_readable Hr c processing_id c'.
  mrun. unfold call_process_pdf. mred. rewrite Hs. mred.
  rewrite (clean_str_run _ _ Ht). mred.
  rewrite (clean_str_run _ _ Hmd). mred.
  rewrite (clean_str_run _ _ Hsm). mred.
  rewrite (clean_list_run _ _ Hkp). mred.
  rewrite (clean_list_run _ _ Htp). mrun. reflexivity.
Qed.

Lemma clean_list_all (l : list pystr) (w : World) :
  clean_list l w
  = match clean_all l with
    | Some l' => (Return l', w)
    | None => (Raised decode_error, w)
    end.
Proof.
  induction l as [|s l IH]; [reflexivity|].
  cbn [clean_list clean_all]. mred. unfold clean_str.
  destruct (clean s) as [s'|]; mred; [|reflexivity].
  rewrite IH. destruct (clean_all l); reflexivity.
Qed.

(** A well-formed entry whose strategy call succeeds, whatever the texts
    of the result: completed when the cleaning goes through, failed when
    it raises. *)
Lemma process_message_returned (env : Env) (message_id : nat)
    (fields : gmap string pystr) (processing_id : pystr)
    (m : list (string * json)) (content : bytes) (r : ProcessingResult)
    (w : World) :
  redis_client w = true -> readable env fields processing_id m content ->
  process_pdf env (S (clock w)) content (name_of m) (parser_of m) = inl r ->
  _process_message env message_id fields w
  = (Return tt,
     let w1 := invoked content (name_of m) (parser_of m)
                 (posted env processing_id processing_update w) in
     match cleaned r with
     | Some (record, embedded) =>
         acked env message_id
           (posted env processing_id (completed_update r embedded)
              (stored env processing_id record w1))
     | None =>
         acked env message_id
           (posted env processing_id (failed_update decode_error) w1)
     end).
Proof.
  destruct w as [rc st ld pl rs ps ck lg]. cbn [redis_client clock].
  intros -> Hr Hs. open_readable Hr c processing_id c'.
  mrun. unfold call_process_pdf. mred. rewrite Hs. mred.
  unfold cleaned, clean_str.
  destruct (clean (text (extraction r))); [|mrun; reflexivity]. mred.
  destruct (clean (markdown (extraction r))); [|mrun; reflexivity]. mred.
  destruct (clean (summary (analysis r))); [|mrun; reflexivity]. mred.
  rewrite clean_list_all.
  destruct (clean_all (key_points (analysis r))); [|mrun; reflexivity]. mred.
  rewrite clean_list_all.
  destruct (clean_all (topics (analysis r))); mrun; reflexivity.
Qed.

Lemma field_present (o : option pystr) :
  field_missing o = false -> exists c s, o = Some (c :: s).
Proof. destruct o as [[|c s]|]; try discriminate. eauto. Qed.

(** Every entry is incomplete, undecodable or readable. *)
Lemma entry_classified (env : Env) (fields : gmap string pystr) :
  incomplete env fields
  \/ (exists processing_id e, undecodable env fields processing_id e)
  \/ (exists processing_id m content, readable env fields processing_id m content).
Proof.
  destruct (field_missing (fields !! "processing_id")) eqn:Hp;
    [left; left; exact Hp|].
  destruct (field_missing (fields !! "data")) eqn:Hd;
    [left; right; left; exact Hd|].
  apply field_present in Hp as (c & pid & Hp).
  apply field_present in Hd as (c' & dj & Hd).
  assert (Hc : carries fields (c :: pid) (c' :: dj))
    by (repeat split; congruence).
  destruct (json_loads env (c' :: dj)) as [v|msg] eqn:Hl.
  2: { right; left. exists (c :: pid), (Exception msg), (c' :: dj). eauto 10. }
  assert (Hv : (exists m, v = JObj m) \/ (forall m, v <> JObj m))
    by (destruct v; eauto; right; discriminate).
  destruct Hv as [[m ->]|Hv].
  2: { right; left. eexists (c :: pid), _, (c' :: dj).
       split; [exact Hc|]. right; left. eauto. }
  destruct (truthy (name_of m)) eqn:Hn.
  2: { left. right; right. exists (c :: pid), (c' :: dj), m. eauto. }
  destruct (truthy (content_of m)) eqn:Hct.
  2: { left. right; right. exists (c :: pid), (c' :: dj), m. eauto. }
  assert (Hx : (exists s bs, content_of m = JStr s /\ fromhex s = Some bs)
               \/ (forall s, content_of m = JStr s -> fromhex s = None)).
  { destruct (content_of m) as [| | | |s| |]; try (right; discriminate).
    destruct (fromhex s) as [bs|] eqn:E; [left; eauto|].
    right. intros ? [= <-]. exact E. }
  destruct Hx as [(s & bs & Hs & Hbs)|Hx].
  - right; right. exists (c :: pid), m, bs. split; [eauto|]. split; [exact Hn|].
    exists s. repeat split; try assumption.
    intros ->. rewrite Hs in Hct. discriminate.
  - right; left. eexists (c :: pid), _, (c' :: dj). split; [exact Hc|].
    right; right. exists m. eauto 10.
Qed.

Lemma processing_update_status : processing_update !! "status" = status PROCESSING.
Proof. apply lookup_insert_eq. Qed.

Lemma completed_update_status (r : ProcessingResult) (embedded : json) :
  completed_update r embedded !! "status" = status COMPLETED.
Proof. apply lookup_insert_eq. Qed.

Lemma failed_update_status (e : exn) : failed_update e !! "status" = status FAILED.
Proof. apply lookup_insert_eq. Qed.

Lemma failed_update_message (e : exn) :
  failed_update e !! "message"
  = Some (JStr (py "Processing failed: " ++ str_exn e)).
Proof.
  unfold failed_update. rewrite lookup_insert_ne by discriminate.
  apply lookup_insert_eq.
Qed.

Ltac leaf l :=
  exists l; eexists; split; [eassumption || reflexivity|];
  cbn [acked posted stored invoked redis_client stream last_delivered log pel
       clock];
  repeat split;
  first
    [ reflexivity
    | rewrite <- ?app_assoc; reflexivity
    | cbn [sent_statuses omap list_omap];
      rewrite ?processing_update_status, ?completed_update_status,
        ?failed_update_status;
      unfold status_patterns; set_solver
    | match goal with |- context [fault ?env ?k] => destruct (fault env k) end;
      set_solver
    | let H := fresh in intros H; rewrite H; reflexivity ].

(** What every call of [_process_message] does when the client is
    connected: it returns, leaves the stream and the cursor alone, ends
    with the acknowledgment of its entry, delivers and acknowledges nothing
    else, and posts statuses along one of the four patterns; the pending
    entries list loses the entry when the broker takes the command. *)
Lemma process_message_shape (env : Env) (message_id : nat)
    (fields : gmap string pystr) (w : World) :
  redis_client w = true ->
  exists l w',
    _process_message env message_id fields w = (Return tt, w')
    /\ redis_client w' = redis_client w /\ stream w' = stream w
    /\ last_delivered w' = last_delivered w
    /\ log w' = log w ++ l ++ [EvXAck message_id]
    /\ forallb quiet l = true
    /\ sent_statuses l ∈ status_patterns
    /\ pel w' ⊆ pel w
    /\ ((forall k, fault env k = None) -> pel w' = pel w ∖ {[message_id]}).
Proof.
  intros Hrc.
  destruct (entry_classified env fields)
    as [H|[(pid & e & H)|(pid & m & bs & H)]].
  - pose proof (process_message_dropped env message_id fields w Hrc H).
    leaf (@nil Event).
  - pose proof (process_message_undecodable env message_id fields pid e w Hrc H).
    leaf [EvUpdateStatus pid (failed_update e)].
  - destruct (process_pdf env (S (clock w)) bs (name_of m) (parser_of m))
      as [r|msg] eqn:Hs.
    + pose proof (process_message_returned env message_id fields pid m bs r w
                    Hrc H Hs) as Hrun.
      cbv zeta in Hrun. destruct (cleaned r) as [[record embedded]|].
      * leaf [EvUpdateStatus pid processing_update;
              EvProcess bs (name_of m) (parser_of m);
              EvSetEx (result_key pid) 86400 (json_dumps env record);
              EvUpdateStatus pid (completed_update r embedded)].
      * leaf [EvUpdateStatus pid processing_update;
              EvProcess bs (name_of m) (parser_of m);
              EvUpdateStatus pid (failed_update decode_error)].
    + pose proof (process_message_failed env message_id fields pid m bs msg w
                    Hrc H Hs).
      leaf [EvUpdateStatus pid processing_update;
            EvProcess bs (name_of m) (parser_of m);
            EvUpdateStatus pid (failed_update (Exception msg))].
Qed.

(** ** Malformed entries *)

(** Claim C5, as stated, fails: an entry with a job id whose payload is no
    JSON is not dropped silently; the worker posts [failed] for the job,
    and the register shows it to the client. *)
Lemma unparseable_payload_reported :
  json_loads Demo.healthy (py "not json")
  = inr (py "Expecting value: line 1 column 1 (char 0)")
  /\ sent_statuses
       (log (exec (_process_message Demo.healthy 0 (Demo.fields_of (py "not json")))
               (Demo.queued PENDING (Demo.fields_of (py "not json")))))
     = [status FAILED]
  /\ status_of
       (exec (_process_message Demo.healthy 0 (Demo.fields_of (py "not json")))
          (Demo.queued PENDING (Demo.fields_of (py "not json"))))
       Demo.job
     = status FAILED.
Proof. repeat split; vm_compute; reflexivity. Qed.

(** Claim C5, amended. With the client connected, an entry whose job id or
    payload is missing or empty, or whose payload decodes to an object
    without a file name or a content, is acknowledged at once and nothing
    else happens: no status is posted, the register and the result store
    are unchanged.  An entry with a job id whose payload cannot be decoded
    (no JSON, no object, a content that is no hexadecimal text) is
    reported as failed under that id and then acknowledged. *)
Theorem malformed_entry_handling (env : Env) (message_id : nat)
    (fields : gmap string pystr) (w : World) :
  redis_client w = true ->
  let run := _process_message env message_id fields w in
  (incomplete env fields ->
   run.1 = Return tt
   /\ log run.2 = log w ++ [EvXAck message_id]
   /\ processing_status run.2 = processing_status w
   /\ result_store run.2 = result_store w)
  /\ (forall processing_id e,
        undecodable env fields processing_id e ->
        run.1 = Return tt
        /\ log run.2 = log w ++ [EvUpdateStatus processing_id (failed_update e);
                                 EvXAck message_id]
        /\ failed_update e !! "status" = status FAILED).
Proof.
  intros Hrc run. subst run. split.
  - intros H. rewrite (process_message_dropped env message_id fields w Hrc H).
    repeat split; reflexivity.
  - intros pid e H.
    rewrite (process_message_undecodable env message_id fields pid e w Hrc H).
    cbn [fst snd acked posted log]. rewrite <- app_assoc.
    repeat split; first [reflexivity | apply failed_update_status].
Qed.

(** The entry with an empty content is incomplete. *)
Lemma no_content_incomplete :
  incomplete Demo.healthy (Demo.fields_of (Demo.dumps Demo.no_content)).
Proof.
  right; right.
  exists Demo.job, (Demo.dumps Demo.no_content),
    [("filename", JStr (py "a.pdf")); ("content", JStr []);
     ("processing_id", JStr Demo.job); ("parser", JStr (py "pypdf"))].
  split; [repeat split; try reflexivity; discriminate|].
  split; [reflexivity|]. right. reflexivity.
Defined.

(** The theorem at an entry whose payload has an empty content. *)
Lemma malformed_entry_handling_witness :
  log (exec (_process_message Demo.healthy 0
               (Demo.fields_of (Demo.dumps Demo.no_content)))
         (Demo.queued PENDING (Demo.fields_of (Demo.dumps Demo.no_content))))
  = [EvXAck 0].
Proof.
  exact (proj1 (proj2 (proj1
    (malformed_entry_handling Demo.healthy 0
       (Demo.fields_of (Demo.dumps Demo.no_content))
       (Demo.queued PENDING (Demo.fields_of (Demo.dumps Demo.no_content)))
       eq_refl) no_content_incomplete))).
Defined.

(** ** Failures while processing *)

(** Claim C6, as stated, fails: when the persistence of the result fails
    (here the [SETEX], the third outgoing call), the worker does not post
    [failed]; the job ends [completed], with no result stored. *)
Lemma persistence_failure_not_failed :
  let env := Demo.env false (Demo.only_call 2) in
  let fields := Demo.fields_of (Demo.dumps (Demo.payload (py "pypdf"))) in
  let w' := exec (_process_message env 0 fields) (Demo.queued PENDING fields) in
  (exists value, log w' !! 2%nat = Some (EvSetEx (result_key Demo.job) 86400 value))
  /\ fault env 2 = Some (py "Connection refused")
  /\ result_store w' !! result_key Demo.job = None
  /\ sent_statuses (log w') = [status PROCESSING; status COMPLETED]
  /\ status_of w' Demo.job = status COMPLETED.
Proof.
  cbv zeta. split; [eexists; vm_compute; reflexivity|].
  repeat split; vm_compute; reflexivity.
Qed.

(** A posted status keeps a registered job registered. *)
Lemma posted_keeps_registered (env : Env) (id : pystr)
    (data : gmap string json) (w : World) :
  is_Some (processing_status w !! id) ->
  is_Some (processing_status (posted env id data w) !! id).
Proof.
  intros [entry H]. unfold posted. cbn [processing_status].
  destruct (fault env (clock w)); [eauto|].
  rewrite H, lookup_insert_eq. eauto.
Qed.

(** A status request that gets through for a registered job leaves its
    fields in the entry. *)
Lemma posted_status (env : Env) (id : pystr) (data : gmap string json)
    (w : World) (key : string) (v : json) :
  fault env (clock w) = None -> is_Some (processing_status w !! id) ->
  data !! key = Some v ->
  exists entry, processing_status (posted env id data w) !! id = Some entry
                /\ entry !! key = Some v.
Proof.
  intros Hf [entry H] Hk. unfold posted. cbn [processing_status].
  rewrite Hf, H, lookup_insert_eq. eexists. split; [reflexivity|].
  now apply lookup_union_Some_l.
Qed.

(** Claim C6, amended. For a well-formed entry (with the client connected),
    whenever the strategy call fails the worker posts [processing], calls
    the strategy, posts [failed] with the message [Processing failed:]
    followed by the reason, and acknowledges the entry; when that last
    request gets through and the job is registered, the register shows
    [failed] with this message.  When the strategy call succeeds on
    well-formed texts, the requests issued are the status [processing],
    the strategy, the store, the status [completed] and the
    acknowledgment, whichever of the outgoing calls fail: a failing status
    request or a failing store is swallowed and leads to no [failed]. *)
Theorem strategy_failure_reported (env : Env) (message_id : nat)
    (fields : gmap string pystr) (processing_id : pystr)
    (m : list (string * json)) (content : bytes) (w : World) :
  redis_client w = true ->
  readable env fields processing_id m content ->
  let run := _process_message env message_id fields w in
  let outcome_ := process_pdf env (S (clock w)) content (name_of m) (parser_of m) in
  (forall msg, outcome_ = inr msg ->
     run.1 = Return tt
     /\ log run.2
        = log w ++ [EvUpdateStatus processing_id processing_update;
                    EvProcess content (name_of m) (parser_of m);
                    EvUpdateStatus processing_id (failed_update (Exception msg));
                    EvXAck message_id]
     /\ (fault env (S (S (clock w))) = None ->
         is_Some (processing_status w !! processing_id) ->
         exists entry,
           processing_status run.2 !! processing_id = Some entry
           /\ entry !! "status" = status FAILED
           /\ entry !! "message"
              = Some (JStr (py "Processing failed: " ++ msg))))
  /\ (forall r, outcome_ = inl r -> wf_result r ->
        run.1 = Return tt
        /\ sent_statuses (drop (length (log w)) (log run.2))
           = [status PROCESSING; status COMPLETED]).
Proof.
  intros Hrc Hr run outcome_. subst run outcome_. split.
  - intros msg Hs.
    rewrite (process_message_failed env message_id fields processing_id m
               content msg w Hrc Hr Hs).
    cbn [fst snd]. split; [reflexivity|]. split.
    + cbn [acked posted invoked log]. rewrite <- !app_assoc. reflexivity.
    + intros Hf Hreg.
      set (w1 := invoked content (name_of m) (parser_of m)
                   (posted env processing_id processing_update w)).
      assert (Hreg1 : is_Some (processing_status w1 !! processing_id))
        by (apply (posted_keeps_registered env _ processing_update w Hreg)).
      assert (Hf1 : fault env (clock w1) = None) by exact Hf.
      destruct (posted_status env processing_id
                  (failed_update (Exception msg)) w1 "status" _ Hf1 Hreg1
                  (failed_update_status _)) as (entry & He & _).
      exists entry. split; [exact He|].
      cbn [acked processing_status] in *. unfold posted in He.
      cbn [processing_status] in He. rewrite Hf1 in He.
      destruct Hreg1 as [old Hold]. rewrite Hold, lookup_insert_eq in He.
      injection He as <-. split; apply lookup_union_Some_l.
      * apply failed_update_status.
      * apply failed_update_message.
  - intros r Hs Hwf.
    rewrite (process_message_completed env message_id fields processing_id m
               content r w Hrc Hr Hs Hwf).
    cbn [fst snd]. split; [reflexivity|].
    cbn [acked posted stored invoked log]. rewrite <- !app_assoc.
    rewrite drop_app_length. cbn [app sent_statuses omap list_omap].
    now rewrite processing_update_status, completed_update_status.
Qed.

(** The entries of the concrete environment are well formed. *)
Lemma good_fields_readable (failing : bool) (faulty : nat -> option pystr) :
  readable (Demo.env failing faulty) good_fields Demo.job
    (demo_members (py "pypdf")) (upload_content Demo.a_pdf).
Proof.
  split; [|split].
  - exists (Demo.dumps (Demo.payload (py "pypdf"))).
    split; [repeat split; try reflexivity; discriminate|reflexivity].
  - reflexivity.
  - exists (hex (upload_content Demo.a_pdf)).
    repeat split; try reflexivity. discriminate.
Defined.

Lemma odd_fields_readable (failing : bool) (faulty : nat -> option pystr) :
  readable (Demo.env failing faulty) odd_fields Demo.job
    (demo_members (py "tesseract")) (upload_content Demo.a_pdf).
Proof.
  split; [|split].
  - exists (Demo.dumps (Demo.payload (py "tesseract"))).
    split; [repeat split; try reflexivity; discriminate|reflexivity].
  - reflexivity.
  - exists (hex (upload_content Demo.a_pdf)).
    repeat split; try reflexivity. discriminate.
Defined.

(** The theorem at a well-formed entry and a strategy that raises [boom]. *)
Lemma strategy_failure_reported_witness :
  exists entry,
    processing_status
      (_process_message (Demo.env true (fun _ => None)) 0 good_fields
         (Demo.queued PENDING good_fields)).2 !! Demo.job = Some entry
    /\ entry !! "status" = status FAILED
    /\ entry !! "message" = Some (JStr (py "Processing failed: " ++ py "boom")).
Proof.
  refine (proj2 (proj2 (proj1
    (strategy_failure_reported (Demo.env true (fun _ => None)) 0 good_fields
       Demo.job (demo_members (py "pypdf")) (upload_content Demo.a_pdf)
       (Demo.queued PENDING good_fields) eq_refl
       (good_fields_readable true (fun _ => None)))
    (py "boom") eq_refl)) eq_refl _).
  eexists. vm_compute. reflexivity.
Defined.

(** ** The parser of an entry *)

Lemma readable_prefix (env : Env) (message_id : nat)
    (fields : gmap string pystr) (processing_id : pystr)
    (m : list (string * json)) (content : bytes) (w : World) :
  redis_client w = true ->
  readable env fields processing_id m content ->
  exists rest,
    log (_process_message env message_id fields w).2
    = log w ++ EvUpdateStatus processing_id processing_update
            :: EvProcess content (name_of m) (parser_of m) :: rest.
Proof.
  intros Hrc Hr.
  destruct (process_pdf env (S (clock w)) content (name_of m) (parser_of m))
    as [r|msg] eqn:Hs.
  - rewrite (process_message_returned env message_id fields processing_id m
               content r w Hrc Hr Hs).
    cbv zeta. destruct (cleaned r) as [[record embedded]|];
      cbn [snd acked posted stored invoked log];
      rewrite <- !app_assoc; cbn [app]; eauto.
  - rewrite (process_message_failed env message_id fields processing_id m
               content msg w Hrc Hr Hs).
    cbn [snd acked posted stored invoked log].
    rewrite <- !app_assoc; cbn [app]; eauto.
Qed.

(** Claim C7, amended. The fallback is the worker's: for every well-formed
    stream entry whose parser value is outside the enumeration, the worker
    posts [processing] and calls the strategy with the baseline [pypdf];
    an entry without parser member is processed with [pypdf] too.  At the
    gateway, a submission with a parser text that is not empty and outside
    the enumeration is refused (422) and nothing is written; only an empty
    text is taken for an absent one, and runs the body with [pypdf]. *)
Theorem worker_parser_fallback (env : Env) (errors : pystr -> json)
    (message_id : nat) (fields : gmap string pystr) (processing_id : pystr)
    (m : list (string * json)) (content : bytes) (w : World) :
  (redis_client w = true ->
   readable env fields processing_id m content ->
   (assoc "parser" m = None
    \/ exists v, assoc "parser" m = Some v /\ ParserType_of v = None) ->
   exists rest,
     log (_process_message env message_id fields w).2
     = log w ++ EvUpdateStatus processing_id processing_update
             :: EvProcess content (name_of m) PYPDF :: rest)
  /\ (forall file s, s <> [] -> ParserType_of (JStr s) = None ->
        post_upload_pdf env errors file (Some s) w
        = (HTTPResponse 422 (JObj [("detail", errors s)]), w))
  /\ (forall file,
        ParserType_of (JStr []) = None
        /\ post_upload_pdf env errors file (Some []) w
           = serve (upload_pdf env file PYPDF) w).
Proof.
  split; [|split].
  - intros Hrc Hr Hp.
    assert (E : parser_of m = PYPDF).
    { unfold parser_of. destruct Hp as [-> | (v & -> & Hv)]; [reflexivity|].
      simpl (default _ (Some v)). now rewrite Hv. }
    rewrite <- E. exact (readable_prefix env message_id fields processing_id m
                           content w Hrc Hr).
  - intros file [|c s] Hne Hs; [congruence|].
    unfold post_upload_pdf. now rewrite Hs.
  - intros file. split; reflexivity.
Qed.

(** The theorem at an entry whose parser is [tesseract]. *)
Lemma worker_parser_fallback_witness :
  ParserType_of (JStr (py "tesseract")) = None
  /\ exists rest,
       log (_process_message Demo.healthy 0 odd_fields
              (Demo.queued PENDING odd_fields)).2
       = [] ++ EvUpdateStatus Demo.job processing_update
            :: EvProcess (upload_content Demo.a_pdf) (JStr (py "a.pdf")) PYPDF
            :: rest.
Proof.
  split; [reflexivity|].
  apply (proj1 (worker_parser_fallback Demo.healthy Demo.errors 0 odd_fields
                  Demo.job
                  (demo_members (py "tesseract")) (upload_content Demo.a_pdf)
                  (Demo.queued PENDING odd_fields)) eq_refl
               (odd_fields_readable false (fun _ => None))).
  right. eexists. split; reflexivity.
Defined.

(** ** Status transitions *)

Lemma sent_statuses_app (l1 l2 : list Event) :
  sent_statuses (l1 ++ l2) = sent_statuses l1 ++ sent_statuses l2.
Proof. apply omap_app. Qed.

(** Claim C8, amended. The register does not protect a terminal status:
    [update_processing_status] merges whatever fields it receives into the
    entry of a registered job.  What holds is a property of the worker:
    while it handles one delivered entry (with the client connected) it
    returns, and the statuses it posts are none, or [failed] alone, or
    [processing] followed by exactly one of [completed] and [failed]; it
    posts nothing after a terminal status. *)
Theorem worker_status_order (env : Env) (message_id : nat)
    (fields : gmap string pystr) (w : World) :
  (redis_client w = true ->
   (_process_message env message_id fields w).1 = Return tt
   /\ exists l,
        log (_process_message env message_id fields w).2 = log w ++ l
        /\ sent_statuses l ∈ status_patterns)
  /\ (forall id status_data entry,
        processing_status w !! id = Some entry ->
        processing_status (exec (update_processing_status id status_data) w) !! id
        = Some (status_data ∪ entry)).
Proof.
  split.
  - intros Hrc.
    destruct (process_message_shape env message_id fields w Hrc)
      as (l & w' & Hrun & _ & _ & _ & Hlog & _ & Hst & _).
    rewrite Hrun. split; [reflexivity|].
    exists (l ++ [EvXAck message_id]). split; [exact Hlog|].
    rewrite sent_statuses_app. cbn [sent_statuses omap list_omap].
    now rewrite app_nil_r.
  - intros id status_data entry H.
    destruct w as [rc st ld pl rs ps ck lg]. cbn [processing_status] in H.
    unfold exec, update_processing_status. mred. rewrite H. mred.
    apply lookup_insert_eq.
Qed.

(** The theorem at a well-formed entry of a healthy service. *)
Lemma worker_status_order_witness :
  exists l,
    log (_process_message Demo.healthy 0 good_fields
           (Demo.queued PENDING good_fields)).2 = [] ++ l
    /\ sent_statuses l ∈ status_patterns.
Proof.
  exact (proj2 (proj1 (worker_status_order Demo.healthy 0 good_fields
                         (Demo.queued PENDING good_fields)) eq_refl)).
Defined.

(** ** A processed entry *)

Lemma scrub_no_surrogate (s : pystr) :
  Forall (fun c => is_surrogate c = false) (scrub s).
Proof.
  unfold scrub. induction s as [|c s IH]; [constructor|].
  cbn [List.map]. constructor; [|exact IH]. unfold replace_cp.
  destruct (is_surrogate c) eqn:E; [reflexivity|exact E].
Qed.

(** Claim C9, as stated, fails: not all the texts of the result are
    cleaned.  The sentiment of the analysis is passed on as it is, so a
    lone surrogate in it reaches the register with the [completed]
    status. *)
Lemma sentiment_not_cleaned :
  let w := Demo.queued PENDING good_fields in
  let w' := (_process_message raw_env 0 good_fields w).2 in
  wf_result raw_result
  /\ sentiment (analysis raw_result) = Some (py "neutral" ++ [0xDC00])
  /\ is_surrogate 0xDC00 = true
  /\ status_of w' Demo.job = Some (JStr (py "completed"))
  /\ shown_sentiment w' Demo.job = Some (JStr (py "neutral" ++ [0xDC00])).
Proof.
  split; [repeat split; repeat constructor; reflexivity|].
  repeat split; vm_compute; reflexivity.
Qed.

(** Claim C9, amended. For a well-formed entry whose strategy call
    succeeds with well-formed texts (and the client connected), cleaning
    never raises and replaces each lone surrogate by the placeholder; it is
    applied to the text, the markdown, the summary, the key points and the
    topics, while the sentiment, the file name and the metadata are passed
    on as they are.  The worker returns, and what it issues is, in this
    order: the status [processing], the strategy call, the [SETEX] of the
    record (cleaned markdown and summary, parser used, file name,
    processing time) under [result:] followed by the job id with 86400
    seconds, the status [completed] with its message, the parser used and
    the full result embedded, and only then the acknowledgment.  When the
    store gets through the record is in the result store with that
    expiration; when the status request gets through and the job is
    registered, the register shows [completed] with the result. *)
Theorem completed_entry_order (env : Env) (message_id : nat)
    (fields : gmap string pystr) (processing_id : pystr)
    (m : list (string * json)) (content : bytes) (r : ProcessingResult)
    (w : World) :
  redis_client w = true ->
  readable env fields processing_id m content ->
  process_pdf env (S (clock w)) content (name_of m) (parser_of m) = inl r ->
  wf_result r ->
  let run := _process_message env message_id fields w in
  (forall s, wf_pystr s ->
     clean s = Some (scrub s)
     /\ Forall (fun c => is_surrogate c = false) (scrub s))
  /\ run.1 = Return tt
  /\ log run.2
     = log w ++ [EvUpdateStatus processing_id processing_fields;
                 EvProcess content (name_of m) (parser_of m);
                 EvSetEx (py "result:" ++ processing_id) 86400
                   (json_dumps env (stored_record_of r));
                 EvUpdateStatus processing_id (completed_fields r);
                 EvXAck message_id]
  /\ (fault env (S (S (clock w))) = None ->
      result_store run.2 !! (py "result:" ++ processing_id)
      = Some (json_dumps env (stored_record_of r), 86400%Z))
  /\ (fault env (S (S (S (clock w)))) = None ->
      is_Some (processing_status w !! processing_id) ->
      exists entry,
        processing_status run.2 !! processing_id = Some entry
        /\ entry !! "status" = Some (JStr (py "completed"))
        /\ entry !! "message"
           = Some (JStr (py "PDF processing completed successfully"))
        /\ entry !! "parser" = Some (JStr (parser_value (parser_used r)))
        /\ entry !! "result" = Some (embedded_result_of r)).
Proof.
  intros Hrc Hr Hs Hwf run. subst run.
  split; [intros s Hs'; split; [now apply decode_encode|apply scrub_no_surrogate]|].
  rewrite (process_message_completed env message_id fields processing_id m
             content r w Hrc Hr Hs Hwf).
  cbn [fst snd]. split; [reflexivity|]. split; [|split].
  - cbn [acked posted stored invoked log]. rewrite <- !app_assoc. reflexivity.
  - intros Hf. cbn [acked posted stored invoked result_store clock].
    rewrite Hf. apply lookup_insert_eq.
  - intros Hf Hreg.
    set (w1 := stored env processing_id (stored_record_of r)
                 (invoked content (name_of m) (parser_of m)
                    (posted env processing_id processing_update w))).
    assert (Hreg1 : is_Some (processing_status w1 !! processing_id))
      by (apply (posted_keeps_registered env _ processing_update w Hreg)).
    assert (Hf1 : fault env (clock w1) = None) by exact Hf.
    cbn [acked processing_status]. unfold posted at 1.
    cbn [processing_status]. rewrite Hf1.
    destruct Hreg1 as [old Hold]. rewrite Hold, lookup_insert_eq.
    eexists. split; [reflexivity|].
    repeat split; apply lookup_union_Some_l; unfold completed_update;
      rewrite ?lookup_insert_ne by discriminate; apply lookup_insert_eq.
Qed.

(** The result of the concrete strategy, lone surrogate included, is made
    of Python strings. *)
Lemma a_result_wf : wf_result (Demo.a_result PYPDF).
Proof.
  repeat split; repeat constructor; reflexivity.
Defined.

(** The theorem at a well-formed entry of a healthy service. *)
Lemma completed_entry_order_witness :
  result_store
    (_process_message Demo.healthy 0 good_fields
       (Demo.queued PENDING good_fields)).2 !! (py "result:" ++ Demo.job)
  = Some (json_dumps Demo.healthy (stored_record_of (Demo.a_result PYPDF)),
          86400%Z).
Proof.
  exact (proj1 (proj2 (proj2 (proj2
    (completed_entry_order Demo.healthy 0 good_fields Demo.job
       (demo_members (py "pypdf")) (upload_content Demo.a_pdf)
       (Demo.a_result PYPDF) (Demo.queued PENDING good_fields)
       eq_refl (good_fields_readable false (fun _ => None)) eq_refl
       a_result_wf)))) eq_refl).
Defined.

(** ** The loop of the worker *)

Lemma drop_cons_lookup {A} (l : list A) (i : nat) (x : A) (rest : list A) :
  drop i l = x :: rest -> l !! i = Some x.
Proof.
  revert i. induction l as [|y l IH]; intros [|i] H; try discriminate.
  - now injection H as -> _.
  - cbn in *. now apply IH.
Qed.

(** One turn of the loop: either nothing is delivered and the cursor, the
    log and the pending entries list stay as they are, or the entry at the
    cursor is delivered, processed and acknowledged. *)
Lemma consume_once_shape (env : Env) (w : World) :
  exists w',
    consume_once env w = (Return tt, w')
    /\ ((last_delivered w' = last_delivered w /\ log w' = log w
         /\ pel w' = pel w)
        \/ (exists l,
              last_delivered w' = S (last_delivered w)
              /\ log w' = log w ++ EvDeliver (last_delivered w)
                               :: l ++ [EvXAck (last_delivered w)]
              /\ forallb quiet l = true
              /\ pel w' ⊆ pel w ∪ {[last_delivered w]}
              /\ ((forall k, fault env k = None) ->
                  last_delivered w ∉ pel w'))).
Proof.
  destruct w as [rc st ld pl rs ps ck lg].
  unfold consume_once, read_messages, require_client, xreadgroup, outgoing.
  mred. destruct rc; mred; [|eexists; split; [reflexivity|left; auto]].
  destruct (fault env ck); mred; [eexists; split; [reflexivity|left; auto]|].
  destruct (drop ld st) as [|f rest] eqn:Hdrop.
  - cbn [take number_from]. mred. eexists; split; [reflexivity|left; auto].
  - change (take 1 (f :: rest)) with [f].
    cbn [number_from length fmap list_fmap fst for_each].
    mred. cbn [for_each snd fst]. mred.
    set (w1 := mkWorld true st (ld + 1) (pl ∪ list_to_set [ld]) rs ps (S ck)
                 (lg ++ [EvDeliver ld])).
    destruct (process_message_shape env ld f w1 eq_refl)
      as (l & w2 & Hrun & Hrc & Hst & Hld & Hlog & Hq & _ & Hsub & Hpel).
    destruct w2 as [rc2 st2 ld2 pl2 rs2 ps2 ck2 lg2].
    subst w1. cbn [redis_client stream last_delivered log pel] in *.
    rewrite Hrun. mred. eexists; split; [reflexivity|].
    right. exists l. subst ld2 lg2.
    split; [lia|]. split; [now rewrite <- app_assoc|].
    split; [exact Hq|]. split; [set_solver|].
    intros Hnf. rewrite (Hpel Hnf). set_solver.
Qed.

Lemma rounds_le (c c' : nat) (l : list Event) : rounds c l c' -> (c <= c')%nat.
Proof. induction 1; lia. Qed.






(** The log of [n] turns of the loop. *)
Lemma consume_messages_rounds (env : Env) (n : nat) :
  forall w, exists w' l,
    consume_messages env n w = (Return tt, w')
    /\ log w' = log w ++ l
    /\ rounds (last_delivered w) l (last_delivered w')
    /\ (forall m, m ∈ pel w' ->
          m ∈ pel w \/ (last_delivered w <= m < last_delivered w')%nat)
    /\ ((forall k, fault env k = None) ->
        forall m, (last_delivered w <= m < last_delivered w')%nat ->
                  m ∉ pel w').
Proof.
  induction n as [|n IH]; intros w.
  - exists w, []. cbn [consume_messages]. rewrite app_nil_r.
    repeat split; [constructor|auto|]. intros _ m Hm. lia.
  - destruct (consume_once_shape env w) as (w1 & Hone & Hcase).
    destruct (IH w1) as (w' & l & Hrun & Hlog & Hr & Hpel & Hnf).
    exists w'. cbn [consume_messages]. unfold mbind, M_bind, bind.
    rewrite Hone, Hrun.
    destruct Hcase as [(Hld & Hlg & Hpl)|(l0 & Hld & Hlg & Hq & Hsub & Hclear)].
    + exists l. rewrite Hld, Hlg, Hpl in *. repeat split; auto.
    + exists (EvDeliver (last_delivered w) :: l0 ++ EvXAck (last_delivered w) :: l).
      pose proof (rounds_le _ _ _ Hr) as Hle.
      rewrite Hld in *. split; [reflexivity|]. split.
      { rewrite Hlog, Hlg. rewrite <- !app_assoc. cbn [app].
        rewrite <- !app_assoc. reflexivity. }
      split; [constructor; assumption|]. split.
      * intros m Hm. destruct (Hpel m Hm) as [H|H]; [|right; lia].
        apply Hsub in H. apply elem_of_union in H as [H|H]; [left; exact H|].
        apply elem_of_singleton in H. right. lia.
      * intros Hfault m Hm.
        destruct (Nat.eq_dec m (last_delivered w)) as [->|Hne].
        -- intros Hin. destruct (Hpel _ Hin) as [H|H]; [|lia].
           exact (Hclear Hfault H).
        -- apply (Hnf Hfault). lia.
Qed.

(** ** Acknowledgment *)



(** * Further properties *)

(** ** The result store *)

(** Extra X1. What [store_result] wrote, [get_result] reads: with the
    client connected, both commands going through and a codec that gives
    back the document, storing a document under a job id and reading that
    id returns the document. *)
Theorem store_then_get (env : Env) (id : pystr) (data : json) (seconds : Z)
    (w : World) :
  redis_client w = true ->
  fault env (clock w) = None -> fault env (S (clock w)) = None ->
  decodes_back env data ->
  ((store_result env id data seconds;; get_result env id) w).1
  = Return (Some data).
Proof.
  intros Hrc Hf1 Hf2 [Hne Hback].
  unfold mbind, M_bind, bind.
  rewrite (store_result_run env id data seconds w Hrc Hf1).
  rewrite get_result_run by (cbn [clock redis_client]; first [reflexivity|assumption]).
  cbn [fst result_store]. rewrite lookup_insert_eq.
  destruct (json_dumps env data) as [|c s] eqn:E; [congruence|].
  now rewrite Hback.
Qed.

(** Extra X2. A second [store_result] under the same job id replaces the
    first: the store ends as if only the second had been written, and the
    id reads as the second document. *)
Theorem store_result_overwrites (env : Env) (id : pystr) (d1 d2 : json)
    (t1 t2 : Z) (w : World) :
  redis_client w = true ->
  fault env (clock w) = None -> fault env (S (clock w)) = None ->
  let twice := store_result env id d1 t1;; store_result env id d2 t2 in
  result_store (exec twice w)
  = result_store (exec (store_result env id d2 t2) w)
  /\ result_store (exec twice w) !! result_key id
     = Some (json_dumps env d2, t2)
  /\ (fault env (S (S (clock w))) = None -> decodes_back env d2 ->
      ((twice;; get_result env id) w).1 = Return (Some d2)).
Proof.
  intros Hrc Hf1 Hf2 twice. subst twice.
  unfold exec, mbind, M_bind, bind.
  rewrite (store_result_run env id d1 t1 w Hrc Hf1).
  rewrite !store_result_run by (cbn [clock redis_client]; first [reflexivity|assumption]).
  cbn [snd fst result_store]. rewrite insert_insert_eq.
  split; [reflexivity|]. split; [apply lookup_insert_eq|].
  intros Hf3 [Hne Hback]. rewrite get_result_run by (cbn [clock redis_client]; first [reflexivity|assumption]).
  cbn [fst result_store]. rewrite lookup_insert_eq.
  destruct (json_dumps env d2) as [|c s] eqn:E; [congruence|].
  now rewrite Hback.
Qed.

Lemma result_key_inj (id id' : pystr) : result_key id = result_key id' -> id = id'.
Proof. unfold result_key. apply app_inv_head. Qed.

(** Extra X3. [store_result] writes under the key of its job id only:
    whatever the outcome, the result of every other job, the register, the
    stream and the consumer group are as before. *)
Theorem store_result_touches_one_key (env : Env) (id : pystr) (data : json)
    (seconds : Z) (w : World) :
  let w' := exec (store_result env id data seconds) w in
  (forall id', id' <> id ->
     result_store w' !! result_key id' = result_store w !! result_key id')
  /\ processing_status w' = processing_status w
  /\ stream w' = stream w /\ last_delivered w' = last_delivered w
  /\ pel w' = pel w.
Proof.
  destruct w as [rc st ld pl rs ps ck lg].
  unfold exec, store_result, require_client, setex, outgoing. mred.
  destruct rc; mred; [|repeat split].
  destruct (fault env ck); mred; repeat split.
  intros id' Hne. fold (result_key id). apply lookup_insert_ne.
  intros H. apply result_key_inj in H. congruence.
Qed.

(** The stored record of the concrete environment is given back by its
    codec. *)
Lemma stored_record_decodes_back :
  decodes_back Demo.healthy Demo.stored_record.
Proof. split; [discriminate|reflexivity]. Defined.

(** The theorem at the stored record of the concrete environment. *)
Lemma store_then_get_witness :
  ((store_result Demo.healthy Demo.job Demo.stored_record 86400;;
    get_result Demo.healthy Demo.job) Demo.started).1
  = Return (Some Demo.stored_record).
Proof.
  exact (store_then_get Demo.healthy Demo.job Demo.stored_record 86400
           Demo.started eq_refl eq_refl eq_refl stored_record_decodes_back).
Defined.

(** The theorem at two writes for one job. *)
Lemma store_result_overwrites_witness :
  ((store_result Demo.healthy Demo.job Demo.no_content 60;;
    store_result Demo.healthy Demo.job Demo.stored_record 86400;;
    get_result Demo.healthy Demo.job) Demo.started).1
  = Return (Some Demo.stored_record).
Proof.
  exact (proj2 (proj2
    (store_result_overwrites Demo.healthy Demo.job Demo.no_content
       Demo.stored_record 60 86400 Demo.started eq_refl eq_refl eq_refl))
    eq_refl stored_record_decodes_back).
Defined.

(** The theorem at two different jobs. *)
Lemma store_result_touches_one_key_witness :
  result_store (exec (store_result Demo.healthy Demo.job Demo.stored_record 60)
                  Demo.started) !! result_key (py "job-1")
  = result_store Demo.started !! result_key (py "job-1").
Proof.
  apply (proj1 (store_result_touches_one_key Demo.healthy Demo.job
                  Demo.stored_record 60 Demo.started)).
  discriminate.
Defined.

(** ** Health and status endpoints *)

(** Extra X4. [GET /health] never raises and changes nothing but the
    clock: it reports [healthy] and [connected] when the client is set and
    the ping goes through, and [unhealthy] and [disconnected] with the
    text of the error otherwise, which is [Redis client not initialized]
    when the client is missing. *)
Theorem health_check_reports (env : Env) (w : World) :
  let failure :=
    if redis_client w then fault env (clock w)
    else Some (py "Redis client not initialized") in
  exists w',
    health_check env w
    = (Return
         match failure with
         | None =>
             JObj [("status", JStr (py "healthy"));
                   ("redis", JStr (py "connected"))]
         | Some msg =>
             JObj [("status", JStr (py "unhealthy"));
                   ("redis", JStr (py "disconnected"));
                   ("error", JStr msg)]
         end, w')
    /\ same_state w w' /\ log w' = log w.
Proof.
  destruct w as [rc st ld pl rs ps ck lg].
  unfold health_check, ping, require_client, outgoing, same_state. mred.
  destruct rc; mred.
  - destruct (fault env ck) as [msg|] eqn:Hf; mred; eexists;
      (split; [reflexivity|]); repeat split.
  - eexists. split; [reflexivity|]. repeat split.
Qed.

(** The theorem at a service whose client is missing. *)
Lemma health_check_reports_witness :
  (health_check Demo.healthy (mkWorld false [] 0 ∅ ∅ ∅ 0 [])).1
  = Return (JObj [("status", JStr (py "unhealthy"));
                  ("redis", JStr (py "disconnected"));
                  ("error", JStr (py "Redis client not initialized"))]).
Proof.
  destruct (health_check_reports Demo.healthy (mkWorld false [] 0 ∅ ∅ ∅ 0 []))
    as (w' & Hrun & _).
  rewrite Hrun. reflexivity.
Defined.

(** Extra X5. A job id the register does not know is answered 404 by
    [GET /status] and by [POST /update-status], and neither creates an
    entry: the world is unchanged. *)
Theorem unknown_job_not_found (V : Validation) (id : pystr)
    (status_data : gmap string json) (w : World) :
  processing_status w !! id = None ->
  serve (get_processing_status V id) w
  = (HTTPResponse 404 (detail "Processing ID not found"), w)
  /\ serve (update_processing_status id status_data) w
     = (HTTPResponse 404 (detail "Processing ID not found"), w).
Proof.
  destruct w as [rc st ld pl rs ps ck lg]. cbn [processing_status].
  intros H. unfold serve, get_processing_status, update_processing_status.
  mred. rewrite H. split; reflexivity.
Qed.

(** The theorem at a started service, which knows no job. *)
Lemma unknown_job_not_found_witness :
  serve (get_processing_status strict Demo.job) Demo.started
  = (HTTPResponse 404 (detail "Processing ID not found"), Demo.started).
Proof.
  exact (proj1 (unknown_job_not_found strict Demo.job ∅ Demo.started eq_refl)).
Defined.

Lemma upload_pdf_registers (env : Env) (file : UploadFile)
    (parser : ParserType) (w : World) :
  endswith (upload_filename file) (py ".pdf") = true ->
  processing_status (upload_pdf env file parser w).2 !! uuid4 env (clock w)
  = Some (pending_entry env file parser).
Proof.
  intros Hpdf. destruct w as [rc st ld pl rs ps ck lg].
  unfold upload_pdf. rewrite Hpdf. cbn [negb].
  unfold fresh_uuid, add_to_stream, require_client, xadd, outgoing. mred.
  destruct rc; mred; [destruct (fault env (S ck)); mred|];
    apply lookup_insert_eq.
Qed.

Lemma ParserType_of_value (p : ParserType) :
  ParserType_of (JStr (parser_value p)) = Some p.
Proof. destruct p; reflexivity. Qed.

Lemma status_of_value (s : ProcessingStatus) :
  ProcessingStatus_of (JStr (status_value s)) = Some s.
Proof. destruct s; reflexivity. Qed.

(** Extra X6. After [upload_pdf] ran on a file name ending in [.pdf],
    whether the append to the stream worked or raised, [GET /status] for
    the generated id answers 200 with status [pending], the upload message,
    the parser submitted and no result. *)
Theorem submitted_job_is_pending (V : Validation) (env : Env)
    (file : UploadFile) (parser : ParserType) (w : World) :
  validates V ->
  endswith (upload_filename file) (py ".pdf") = true ->
  (serve (get_processing_status V (uuid4 env (clock w)))
     (upload_pdf env file parser w).2).1
  = HTTPResponse 200
      (JObj [("processing_id", JStr (uuid4 env (clock w)));
             ("status", JStr (py "pending"));
             ("message",
              JStr (py "PDF uploaded and queued for processing with "
                    ++ format_parser env parser ++ py " parser"));
             ("parser", JStr (parser_value parser));
             ("result", JNull)]).
Proof.
  intros [Hstr _] Hpdf.
  pose proof (upload_pdf_registers env file parser w Hpdf) as Hreg.
  generalize dependent (uuid4 env (clock w)). intros jid Hreg.
  destruct (upload_pdf env file parser w) as [r [rc st ld pl rs ps ck lg]].
  cbn [snd processing_status] in *.
  unfold serve, get_processing_status. mred. rewrite Hreg.
  replace (pending_entry env file parser !! "status")
    with (Some (JStr (status_value PENDING))) by reflexivity.
  replace (pending_entry env file parser !! "message")
    with (Some (JStr (py "PDF uploaded and queued for processing with "
                      ++ format_parser env parser ++ py " parser")))
    by reflexivity.
  replace (pending_entry env file parser !! "parser")
    with (Some (JStr (parser_value parser))) by reflexivity.
  replace (pending_entry env file parser !! "result")
    with (@None json) by reflexivity.
  cbn [default from_option Datatypes.id]. unfold PDFProcessingResponse.
  rewrite status_of_value, Hstr, ParserType_of_value. reflexivity.
Qed.

(** The theorem at a submission of [a.pdf]. *)
Lemma submitted_job_is_pending_witness :
  exists body,
    (serve (get_processing_status strict (py "job-0"))
       (upload_pdf Demo.healthy Demo.a_pdf MISTRAL Demo.started).2).1
    = HTTPResponse 200 (JObj body)
    /\ assoc "status" body = Some (JStr (py "pending"))
    /\ assoc "parser" body = Some (JStr (py "mistral")).
Proof.
  eexists. split.
  - apply (submitted_job_is_pending strict Demo.healthy Demo.a_pdf MISTRAL
             Demo.started).
    + split; reflexivity.
    + reflexivity.
  - split; reflexivity.
Defined.

(** ** What the worker may touch *)

Lemma touches_only_refl (pid : option pystr) (w : World) : touches_only pid w w.
Proof.
  repeat split. intros id. destruct (processing_status w !! id); auto.
Qed.

Lemma touches_only_trans (pid : option pystr) (w1 w2 w3 : World) :
  touches_only pid w1 w2 -> touches_only pid w2 w3 -> touches_only pid w1 w3.
Proof.
  intros (Ha & Hb & Hc & Hd & He) (Ha' & Hb' & Hc' & Hd' & He').
  repeat split; try congruence.
  - destruct (Hd id H), (Hd' id H). congruence.
  - destruct (Hd id H), (Hd' id H). congruence.
  - intros id. specialize (He id). specialize (He' id).
    destruct (processing_status w1 !! id), (processing_status w2 !! id),
      (processing_status w3 !! id); try tauto.
    intros k Hk. rewrite He' by exact Hk. now apply He.
Qed.

Lemma touches_only_posted (env : Env) (pid : pystr)
    (status_data : gmap string json) (w : World) :
  (forall k, k ∉ worker_keys -> status_data !! k = None) ->
  touches_only (Some pid) w (posted env pid status_data w).
Proof.
  intros Hkeys. unfold touches_only, posted.
  cbn [redis_client stream last_delivered processing_status result_store].
  repeat split.
  - destruct (fault env (clock w)); [reflexivity|].
    destruct (processing_status w !! pid) eqn:E; [|reflexivity].
    apply lookup_insert_ne. congruence.
  - intros id.
    destruct (fault env (clock w));
      [destruct (processing_status w !! id); auto|].
    destruct (processing_status w !! pid) as [entry|] eqn:E;
      [|destruct (processing_status w !! id); auto].
    destruct (decide (pid = id)) as [<-|Hne].
    + rewrite E, lookup_insert_eq. intros k Hk.
      rewrite lookup_union_r; [reflexivity|]. now apply Hkeys.
    + rewrite lookup_insert_ne by exact Hne.
      destruct (processing_status w !! id); auto.
Qed.

Lemma touches_only_stored (env : Env) (pid : pystr) (data : json) (w : World) :
  touches_only (Some pid) w (stored env pid data w).
Proof.
  unfold touches_only, stored.
  cbn [redis_client stream last_delivered processing_status result_store].
  repeat split.
  - destruct (fault env (clock w)); [reflexivity|].
    apply lookup_insert_ne. intros E. apply result_key_inj in E. congruence.
  - intros id. destruct (processing_status w !! id); auto.
Qed.

Lemma touches_only_acked (env : Env) (pid : option pystr) (m : nat) (w : World) :
  touches_only pid w (acked env m w).
Proof.
  repeat split. intros id. cbn. destruct (processing_status w !! id); auto.
Qed.

Lemma touches_only_invoked (pid : option pystr) (content : bytes)
    (name : json) (parser : ParserType) (w : World) :
  touches_only pid w (invoked content name parser w).
Proof.
  repeat split. intros id. cbn. destruct (processing_status w !! id); auto.
Qed.

Lemma update_keys (status_data : gmap string json) :
  status_data = processing_update
  \/ (exists e, status_data = failed_update e)
  \/ (exists r embedded, status_data = completed_update r embedded) ->
  forall k, k ∉ worker_keys -> status_data !! k = None.
Proof.
  intros H k Hk.
  assert (k <> "status" /\ k <> "message" /\ k <> "parser" /\ k <> "result")
    as (H1 & H2 & H3 & H4).
  { unfold worker_keys in Hk. repeat split; intros ->; apply Hk;
      repeat (first [apply list_elem_of_here | apply list_elem_of_further]). }
  destruct H as [-> | [[e ->] | (r & embedded & ->)]];
    unfold processing_update, failed_update, completed_update;
    rewrite ?lookup_insert_ne by congruence; apply lookup_empty.
Qed.

Ltac touch :=
  repeat first
    [ apply touches_only_refl
    | eapply touches_only_trans; [|apply touches_only_acked]
    | eapply touches_only_trans;
        [|apply touches_only_posted; apply update_keys; eauto 6]
    | eapply touches_only_trans; [|apply touches_only_stored]
    | eapply touches_only_trans; [|apply touches_only_invoked] ].

(** Handling an entry touches only what belongs to its job. *)
Lemma process_message_touches (env : Env) (message_id : nat)
    (fields : gmap string pystr) (w : World) :
  redis_client w = true ->
  touches_only (fields !! "processing_id") w
    (_process_message env message_id fields w).2.
Proof.
  intros Hrc.
  destruct (entry_classified env fields)
    as [H|[(pid & e & H)|(pid & m & bs & H)]].
  - rewrite (process_message_dropped env message_id fields w Hrc H).
    cbn [snd]. touch.
  - rewrite (process_message_undecodable env message_id fields pid e w Hrc H).
    destruct H as (dj & (-> & _) & _). cbn [snd]. touch.
  - assert (Hp : fields !! "processing_id" = Some pid)
      by (destruct H as ((dj & (Hp & _) & _) & _); exact Hp).
    rewrite Hp.
    destruct (process_pdf env (S (clock w)) bs (name_of m) (parser_of m))
      as [r|msg] eqn:Hs.
    + rewrite (process_message_returned env message_id fields pid m bs r w
                 Hrc H Hs).
      cbv zeta. cbn [snd]. destruct (cleaned r) as [[record embedded]|]; touch.
    + rewrite (process_message_failed env message_id fields pid m bs msg w
                 Hrc H Hs).
      cbn [snd]. touch.
Qed.

(** Extra X7. While the worker handles an entry whose job id is made of
    letters, digits, [-] and [_], as the ids of the gateway are (with the
    client connected), it leaves the client, the stream and the cursor
    alone; in the register it creates and removes no id, changes no entry
    of another job, and in the entry of the job it changes no key other
    than [status], [message], [parser] and [result]; in the result store
    it leaves the result of every other job as it is. *)
Theorem worker_touches_only (env : Env) (message_id : nat)
    (fields : gmap string pystr) (w : World) :
  redis_client w = true ->
  (forall processing_id,
     fields !! "processing_id" = Some processing_id ->
     forallb url_plain processing_id = true) ->
  touches_only (fields !! "processing_id") w
    (_process_message env message_id fields w).2.
Proof. intros Hrc _. now apply process_message_touches. Qed.

(** The theorem at a well-formed entry of a healthy service. *)
Lemma worker_touches_only_witness :
  stream (_process_message Demo.healthy 0 good_fields
            (Demo.queued PENDING good_fields)).2
  = stream (Demo.queued PENDING good_fields).
Proof.
  refine (proj1 (proj2
    (worker_touches_only Demo.healthy 0 good_fields
       (Demo.queued PENDING good_fields) eq_refl _))).
  intros processing_id [= <-]. reflexivity.
Defined.

(** ** Turns of the loop *)

(** A turn with nothing to read: the client is missing, the read fails or
    no entry waits at the cursor.  Nothing changes but the clock. *)
Lemma consume_once_idle (env : Env) (w : World) :
  redis_client w = false \/ is_Some (fault env (clock w))
  \/ stream w !! last_delivered w = None ->
  exists w', consume_once env w = (Return tt, w')
             /\ same_state w w' /\ log w' = log w.
Proof.
  destruct w as [rc st ld pl rs ps ck lg].
  cbn [redis_client clock stream last_delivered].
  unfold consume_once, read_messages, require_client, xreadgroup, outgoing,
    same_state.
  intros H. mred.
  destruct rc; mred; [|eexists; repeat split; reflexivity].
  destruct (fault env ck) as [msg|] eqn:Hf; mred;
    [eexists; repeat split; reflexivity|].
  destruct H as [H|[[? H]|H]]; try discriminate.
  rewrite (drop_ge st ld) by (apply lookup_ge_None; exact H).
  cbn [take number_from]. mred. eexists; repeat split; reflexivity.
Qed.

(** A turn with an entry waiting at the cursor: the entry is delivered and
    handled. *)
Lemma consume_once_delivers (env : Env) (w : World) (f : gmap string pystr) :
  redis_client w = true -> fault env (clock w) = None ->
  stream w !! last_delivered w = Some f ->
  consume_once env w
  = (Return tt, (_process_message env (last_delivered w) f (delivered w)).2).
Proof.
  destruct w as [rc st ld pl rs ps ck lg].
  cbn [redis_client clock stream last_delivered]. intros -> Hf Hst.
  destruct (process_message_shape env ld f
              (delivered (mkWorld true st ld pl rs ps ck lg)) eq_refl)
    as (l & w2 & Hrun & _).
  rewrite Hrun. cbn [snd].
  unfold consume_once, read_messages, require_client, xreadgroup, outgoing.
  mred. rewrite Hf. mred.
  rewrite (drop_S st f ld Hst).
  change (take 1 (f :: drop (S ld) st)) with [f].
  cbn [number_from length fmap list_fmap fst for_each].
  mred. cbn [for_each snd fst]. mred.
  replace (pl ∪ list_to_set [ld]) with (pl ∪ {[ld]}) by set_solver.
  unfold delivered in Hrun.
  cbn [redis_client stream last_delivered pel result_store processing_status
       clock log] in Hrun.
  rewrite Hrun. reflexivity.
Qed.

Lemma touches_only_ids (pid : option pystr) (w w' : World) :
  touches_only pid w w' ->
  dom (processing_status w') = dom (processing_status w).
Proof.
  intros (_ & _ & _ & _ & H). apply set_eq. intros id.
  rewrite !elem_of_dom. specialize (H id).
  destruct (processing_status w !! id), (processing_status w' !! id);
    try tauto; split; intros [? ?]; (discriminate || eauto).
Qed.

(** One turn keeps the client, the stream and the ids of the register, and
    moves the cursor by at most one entry, never beyond the stream. *)
Lemma consume_once_keeps (env : Env) (w : World) :
  let w' := (consume_once env w).2 in
  (consume_once env w).1 = Return tt
  /\ redis_client w' = redis_client w /\ stream w' = stream w
  /\ dom (processing_status w') = dom (processing_status w)
  /\ (last_delivered w <= last_delivered w' <= S (last_delivered w))%nat
  /\ ((last_delivered w <= length (stream w))%nat ->
      (last_delivered w' <= length (stream w))%nat).
Proof.
  cbv zeta.
  destruct (redis_client w) eqn:Hrc.
  2: { destruct (consume_once_idle env w) as (w' & -> & Hs & _); [auto|].
       destruct Hs as (? & ? & ? & ? & ? & ?). cbn [fst snd].
       repeat split; try congruence; lia. }
  destruct (fault env (clock w)) as [msg|] eqn:Hf.
  { destruct (consume_once_idle env w) as (w' & -> & Hs & _); [eauto|].
    destruct Hs as (? & ? & ? & ? & ? & ?). cbn [fst snd].
    repeat split; try congruence; lia. }
  destruct (stream w !! last_delivered w) as [f|] eqn:Hst.
  2: { destruct (consume_once_idle env w) as (w' & -> & Hs & _); [auto|].
       destruct Hs as (? & ? & ? & ? & ? & ?). cbn [fst snd].
       repeat split; try congruence; lia. }
  rewrite (consume_once_delivers env w f Hrc Hf Hst). cbn [fst snd].
  pose proof (process_message_touches env (last_delivered w) f (delivered w)
                Hrc) as Ht.
  pose proof (touches_only_ids _ _ _ Ht) as Hdom.
  destruct Ht as (Ha & Hb & Hc & _).
  cbn [delivered redis_client stream last_delivered processing_status] in *.
  apply lookup_lt_Some in Hst.
  repeat split; try assumption; try congruence; lia.
Qed.

Lemma consume_messages_step (env : Env) (n : nat) (w : World) :
  consume_messages env (S n) w
  = consume_messages env n (consume_once env w).2.
Proof.
  cbn [consume_messages]. unfold mbind, M_bind, bind.
  pose proof (consume_once_keeps env w) as (H & _).
  destruct (consume_once env w) as [r w1]. cbn [fst snd] in *. now subst r.
Qed.

(** Extra X8. Any number of turns of the worker loop leave the client and
    the stream as they are and create or remove no id of the register;
    the cursor only advances, by at most one entry a turn, and never
    passes the end of the stream. *)
Theorem loop_keeps (env : Env) (n : nat) (w : World) :
  let w' := exec (consume_messages env n) w in
  redis_client w' = redis_client w /\ stream w' = stream w
  /\ dom (processing_status w') = dom (processing_status w)
  /\ (last_delivered w <= last_delivered w' <= last_delivered w + n)%nat
  /\ ((last_delivered w <= length (stream w))%nat ->
      (last_delivered w' <= length (stream w))%nat).
Proof.
  cbv zeta. unfold exec. revert w. induction n as [|n IH]; intros w.
  - cbn. repeat split; lia.
  - rewrite consume_messages_step.
    pose proof (consume_once_keeps env w) as (_ & Ha & Hb & Hc & Hd & He).
    cbv zeta in *. specialize (IH (consume_once env w).2).
    destruct IH as (Ha' & Hb' & Hc' & Hd' & He').
    rewrite Hb in *.
    repeat split;
      first [ congruence | lia
            | intros Hle; apply He'; apply He; exact Hle ].
Qed.

Lemma deliveries_app (l1 l2 : list Event) :
  deliveries (l1 ++ l2) = deliveries l1 ++ deliveries l2.
Proof. apply omap_app. Qed.

Lemma deliveries_quiet (l : list Event) :
  forallb quiet l = true -> deliveries l = [].
Proof.
  induction l as [|e l IH]; [reflexivity|].
  cbn [forallb]. intros [He Hl]%andb_true_iff.
  destruct e; try discriminate; cbn; now apply IH.
Qed.

Lemma rounds_deliveries (c c' : nat) (l : list Event) :
  rounds c l c' -> deliveries l = seq c (c' - c).
Proof.
  induction 1 as [c|c l rest c' Hq Hr IH].
  - now rewrite Nat.sub_diag.
  - pose proof (rounds_le _ _ _ Hr) as Hle.
    change (EvDeliver c :: l ++ EvXAck c :: rest)
      with ([EvDeliver c] ++ l ++ [EvXAck c] ++ rest).
    rewrite !deliveries_app, (deliveries_quiet l Hq), IH.
    replace (c' - c)%nat with (S (c' - S c)) by lia. reflexivity.
Qed.

(** Extra X9. The loop hands out the entries in the order of the stream,
    one after the other from the cursor on, skipping none: the ids
    delivered in a run, in order, are the consecutive positions from the
    cursor before the run up to the cursor after it. *)
Theorem delivered_in_order (env : Env) (n : nat) (w : World) :
  exists l,
    log (exec (consume_messages env n) w) = log w ++ l
    /\ deliveries l
       = seq (last_delivered w)
           (last_delivered (exec (consume_messages env n) w) - last_delivered w).
Proof.
  destruct (consume_messages_rounds env n w) as (w' & l & Hrun & Hlog & Hr & _).
  exists l. unfold exec. rewrite Hrun. cbn [snd].
  split; [exact Hlog|]. exact (rounds_deliveries _ _ _ Hr).
Qed.

(** With a working broker and a waiting entry a turn moves the cursor. *)
Lemma consume_once_advances (env : Env) (w : World) :
  (forall k, fault env k = None) -> redis_client w = true ->
  (last_delivered w < length (stream w))%nat ->
  last_delivered (consume_once env w).2 = S (last_delivered w)
  /\ redis_client (consume_once env w).2 = true
  /\ stream (consume_once env w).2 = stream w.
Proof.
  intros Hnf Hrc Hlt.
  destruct (lookup_lt_is_Some_2 _ _ Hlt) as [f Hst].
  rewrite (consume_once_delivers env w f Hrc (Hnf _) Hst). cbn [snd].
  destruct (process_message_touches env (last_delivered w) f (delivered w) Hrc)
    as (Ha & Hb & Hc & _).
  cbn [delivered redis_client stream last_delivered] in *.
  repeat split; try congruence. lia.
Qed.

(** Extra X10. With the client connected and a broker that takes every
    command, [n] turns of the loop handle [n] waiting entries: when at
    least [n] entries wait behind the cursor, the cursor ends [n] entries
    further and the entries delivered are exactly these [n], in order. *)
Theorem loop_progress (env : Env) (n : nat) (w : World) :
  (forall k, fault env k = None) -> redis_client w = true ->
  (last_delivered w + n <= length (stream w))%nat ->
  last_delivered (exec (consume_messages env n) w) = (last_delivered w + n)%nat
  /\ exists l,
       log (exec (consume_messages env n) w) = log w ++ l
       /\ deliveries l = seq (last_delivered w) n.
Proof.
  intros Hnf Hrc Hle.
  assert (Hc : last_delivered (exec (consume_messages env n) w)
               = (last_delivered w + n)%nat).
  { unfold exec. revert w Hrc Hle. induction n as [|n IH]; intros w Hrc Hle.
    - cbn. lia.
    - rewrite consume_messages_step.
      destruct (consume_once_advances env w Hnf Hrc ltac:(lia))
        as (Hld & Hrc1 & Hst1).
      rewrite IH by (rewrite ?Hld, ?Hst1; first [assumption | lia]).
      lia. }
  split; [exact Hc|].
  destruct (consume_messages_rounds env n w) as (w' & l & Hrun & Hlog & Hr & _).
  unfold exec in *. rewrite Hrun in *. cbn [snd] in *.
  exists l. split; [exact Hlog|].
  rewrite (rounds_deliveries _ _ _ Hr), Hc. f_equal. lia.
Qed.

(** ** From the gateway to the strategy *)

Lemma upload_pdf_submitted (env : Env) (file : UploadFile)
    (parser : ParserType) (w : World) :
  endswith (upload_filename file) (py ".pdf") = true ->
  redis_client w = true -> fault env (S (clock w)) = None ->
  (upload_pdf env file parser w).2 = submitted env file parser w
  /\ exists body, (upload_pdf env file parser w).1 = Return body.
Proof.
  intros Hpdf. destruct w as [rc st ld pl rs ps ck lg].
  cbn [redis_client clock]. intros -> Hf.
  unfold upload_pdf. rewrite Hpdf. cbn [negb].
  unfold fresh_uuid, add_to_stream, require_client, xadd, outgoing, submitted,
    stream_fields.
  mred. rewrite Hf. mred. rewrite <- !app_assoc. split; [reflexivity|eauto].
Qed.

Lemma endswith_nonempty (s : pystr) : endswith s (py ".pdf") = true -> s <> [].
Proof. intros H ->. discriminate. Qed.

Lemma hex_nonempty (bs : bytes) : bs <> [] -> hex bs <> [].
Proof. destruct bs as [|b bs]; [congruence|]. discriminate. Qed.

Lemma gateway_fields_carry (env : Env) (file : UploadFile) (id : pystr)
    (parser : ParserType) :
  id <> [] -> json_dumps env (stream_payload file id parser) <> [] ->
  carries (stream_fields env file id parser) id
    (json_dumps env (stream_payload file id parser)).
Proof.
  intros Hid Hd. unfold carries, stream_fields.
  rewrite lookup_insert_eq, lookup_insert_ne by discriminate.
  rewrite lookup_insert_eq. auto.
Qed.

(** The entry the gateway appends for a file with content is well formed,
    and reads as the file name, the content and the parser submitted. *)
Lemma gateway_fields_readable (env : Env) (file : UploadFile) (id : pystr)
    (parser : ParserType) :
  endswith (upload_filename file) (py ".pdf") = true ->
  upload_content file <> [] -> id <> [] ->
  decodes_back env (stream_payload file id parser) ->
  readable env (stream_fields env file id parser) id
    (payload_members file id parser) (upload_content file)
  /\ name_of (payload_members file id parser) = JStr (upload_filename file)
  /\ parser_of (payload_members file id parser) = parser.
Proof.
  intros Hpdf Hc Hid [Hne Hback]. split; [|split].
  - split; [|split].
    + exists (json_dumps env (stream_payload file id parser)).
      split; [now apply gateway_fields_carry|exact Hback].
    + cbn. apply endswith_nonempty in Hpdf.
      destruct (upload_filename file); [congruence|reflexivity].
    + exists (hex (upload_content file)).
      split; [reflexivity|]. split; [now apply hex_nonempty|apply fromhex_hex].
  - reflexivity.
  - unfold parser_of, payload_members. cbn [assoc String.eqb Ascii.eqb Bool.eqb default from_option Datatypes.id].
    now rewrite ParserType_of_value.
Qed.

(** Extra X11. From the gateway to the strategy: when a file with a
    [.pdf] name and some content is submitted to a service whose worker has
    caught up, the append and the next read go through, the generated id is
    not empty and the codec gives back the payload, then the next turn of
    the loop delivers the new entry, posts [processing] for the generated
    id and calls the strategy with exactly the submitted bytes, file name
    and parser. *)
Theorem submitted_content_reaches_strategy (env : Env) (file : UploadFile)
    (parser : ParserType) (w : World) :
  let id := uuid4 env (clock w) in
  endswith (upload_filename file) (py ".pdf") = true ->
  upload_content file <> [] ->
  redis_client w = true ->
  last_delivered w = length (stream w) ->
  fault env (S (clock w)) = None -> fault env (S (S (clock w))) = None ->
  id <> [] ->
  decodes_back env (stream_payload file id parser) ->
  exists rest,
    log ((upload_pdf env file parser;; consume_once env) w).2
    = log w ++ [EvUuid id;
                EvSetStatus id (pending_entry env file parser);
                EvXAdd (stream_fields env file id parser);
                EvDeliver (length (stream w));
                EvUpdateStatus id processing_update;
                EvProcess (upload_content file) (JStr (upload_filename file))
                  parser] ++ rest.
Proof.
  intros id Hpdf Hc Hrc Hld Hf1 Hf2 Hid Hback.
  destruct (upload_pdf_submitted env file parser w Hpdf Hrc Hf1)
    as (Hw & body & Hbody).
  unfold mbind, M_bind, bind.
  destruct (upload_pdf env file parser w) as [r w1]. cbn [fst snd] in *.
  subst r w1.
  set (w1 := submitted env file parser w).
  assert (Hst : stream w1 !! last_delivered w1
                = Some (stream_fields env file id parser)).
  { subst w1. unfold submitted. cbn [stream last_delivered]. rewrite Hld.
    apply list_lookup_middle. reflexivity. }
  rewrite (consume_once_delivers env w1 _ Hrc Hf2 Hst). cbn [snd].
  destruct (gateway_fields_readable env file id parser Hpdf Hc Hid Hback)
    as (Hr & Hn & Hp).
  destruct (readable_prefix env (last_delivered w1)
              (stream_fields env file id parser) id
              (payload_members file id parser) (upload_content file)
              (delivered w1) Hrc Hr) as (rest & Hlog).
  exists rest. rewrite Hlog, Hn, Hp.
  subst w1. unfold delivered, submitted. cbn [log last_delivered].
  rewrite Hld, <- !app_assoc. reflexivity.
Qed.

(** The entry the gateway appends for a file without content is
    incomplete. *)
Lemma gateway_fields_incomplete (env : Env) (file : UploadFile) (id : pystr)
    (parser : ParserType) :
  upload_content file = [] -> id <> [] ->
  decodes_back env (stream_payload file id parser) ->
  incomplete env (stream_fields env file id parser).
Proof.
  intros Hc Hid [Hne Hback]. right; right.
  exists id, (json_dumps env (stream_payload file id parser)),
    (payload_members file id parser).
  split; [now apply gateway_fields_carry|]. split; [exact Hback|].
  right. unfold content_of, payload_members. cbn. now rewrite Hc.
Qed.

(** Extra X12. A file without content is accepted and then dropped: under
    the conditions of X11, but with an empty content, the next turn of the
    loop delivers the entry and acknowledges it at once, posts no status
    and calls no strategy, so that the job is still [pending] afterwards
    and its entry is consumed. *)
Theorem empty_submission_stays_pending (env : Env) (file : UploadFile)
    (parser : ParserType) (w : World) :
  let id := uuid4 env (clock w) in
  let w' := ((upload_pdf env file parser;; consume_once env) w).2 in
  endswith (upload_filename file) (py ".pdf") = true ->
  upload_content file = [] ->
  redis_client w = true ->
  last_delivered w = length (stream w) ->
  fault env (S (clock w)) = None -> fault env (S (S (clock w))) = None ->
  id <> [] ->
  decodes_back env (stream_payload file id parser) ->
  log w' = log w ++ [EvUuid id;
                     EvSetStatus id (pending_entry env file parser);
                     EvXAdd (stream_fields env file id parser);
                     EvDeliver (length (stream w));
                     EvXAck (length (stream w))]
  /\ status_of w' id = status PENDING
  /\ last_delivered w' = length (stream w').
Proof.
  intros id w' Hpdf Hc Hrc Hld Hf1 Hf2 Hid Hback. subst w'.
  destruct (upload_pdf_submitted env file parser w Hpdf Hrc Hf1)
    as (Hw & body & Hbody).
  unfold mbind, M_bind, bind.
  destruct (upload_pdf env file parser w) as [r w1]. cbn [fst snd] in *.
  subst r w1.
  set (w1 := submitted env file parser w).
  assert (Hst : stream w1 !! last_delivered w1
                = Some (stream_fields env file id parser)).
  { subst w1. unfold submitted. cbn [stream last_delivered]. rewrite Hld.
    apply list_lookup_middle. reflexivity. }
  rewrite (consume_once_delivers env w1 _ Hrc Hf2 Hst). cbn [snd].
  rewrite (process_message_dropped env _ _ (delivered w1) Hrc
             (gateway_fields_incomplete env file id parser Hc Hid Hback)).
  cbn [snd]. subst w1.
  unfold status_of, acked, delivered, submitted.
  cbn [log last_delivered stream processing_status].
  fold id. rewrite Hld, <- !app_assoc, lookup_insert_eq, length_app.
  cbn [mbind option_bind length]. rewrite pending_entry_status.
  repeat split; first [reflexivity | lia].
Qed.

(** ** A job from its submission to its answer *)

Lemma submit_then_turn (env : Env) (file : UploadFile) (parser : ParserType)
    (w : World) :
  endswith (upload_filename file) (py ".pdf") = true ->
  redis_client w = true -> last_delivered w = length (stream w) ->
  fault env (S (clock w)) = None -> fault env (S (S (clock w))) = None ->
  handled env file parser w
  = (_process_message env (length (stream w))
       (stream_fields env file (uuid4 env (clock w)) parser)
       (delivered (submitted env file parser w))).2.
Proof.
  intros Hpdf Hrc Hld Hf1 Hf2.
  destruct (upload_pdf_submitted env file parser w Hpdf Hrc Hf1)
    as (Hw & body & Hbody).
  unfold handled, exec, mbind, M_bind, bind.
  destruct (upload_pdf env file parser w) as [r w1]. cbn [fst snd] in *.
  subst r w1.
  set (w1 := submitted env file parser w).
  assert (Hst : stream w1 !! last_delivered w1
                = Some (stream_fields env file (uuid4 env (clock w)) parser)).
  { subst w1. unfold submitted. cbn [stream last_delivered]. rewrite Hld.
    apply list_lookup_middle. reflexivity. }
  rewrite (consume_once_delivers env w1 _ Hrc Hf2 Hst). cbn [snd].
  subst w1. unfold submitted at 1. cbn [last_delivered]. now rewrite Hld.
Qed.

Lemma get_processing_status_run (V : Validation) (id : pystr) (w : World)
    (entry : gmap string json) (s : ProcessingStatus) (msg : pystr)
    (pj rj : json) :
  validates V ->
  processing_status w !! id = Some entry ->
  entry !! "status" = Some (JStr (status_value s)) ->
  entry !! "message" = Some (JStr msg) ->
  default JNull (entry !! "parser") = pj ->
  (pj = JNull \/ exists p, pj = JStr (parser_value p)) ->
  default JNull (entry !! "result") = rj ->
  (rj = JNull \/ exists m, rj = JObj m) ->
  serve (get_processing_status V id) w
  = (HTTPResponse 200 (status_body id s msg pj rj), w).
Proof.
  intros [Hstr Hdict] Hreg Hs Hm Hp Hpj Hr Hrj.
  destruct w as [rc st ld pl rs ps ck lg]. cbn [processing_status] in Hreg.
  unfold serve, get_processing_status. mred. rewrite Hreg, Hs, Hm.
  cbn [default from_option Datatypes.id]. rewrite Hp, Hr.
  unfold PDFProcessingResponse. rewrite status_of_value, Hstr.
  destruct Hpj as [-> | [p ->]]; destruct Hrj as [-> | [m ->]];
    rewrite ?ParserType_of_value, ?Hdict; reflexivity.
Qed.


(** The register and the result store after a failed strategy call. *)
Lemma failed_world (env : Env) (message_id : nat) (id : pystr)
    (content : bytes) (name : json) (parser : ParserType) (e : exn)
    (entry : gmap string json) (w : World) :
  (forall k, fault env k = None) -> redis_client w = true ->
  processing_status w !! id = Some entry ->
  let w' :=
    acked env message_id
      (posted env id (failed_update e)
         (invoked content name parser
            (posted env id processing_update w))) in
  redis_client w' = true
  /\ result_store w' = result_store w
  /\ processing_status w' !! id
     = Some (failed_update e ∪ (processing_update ∪ entry)).
Proof.
  intros Hnf Hrc Hreg. destruct w as [rc st ld pl rs ps ck lg].
  cbn [redis_client processing_status] in *. subst rc.
  unfold acked, posted, invoked.
  cbn [redis_client result_store processing_status clock].
  rewrite !Hnf, Hreg. repeat rewrite lookup_insert_eq.
  repeat split; reflexivity.
Qed.

Lemma submitted_registered (env : Env) (file : UploadFile)
    (parser : ParserType) (w : World) :
  processing_status (delivered (submitted env file parser w))
    !! uuid4 env (clock w)
  = Some (pending_entry env file parser).
Proof. unfold delivered, submitted. cbn [processing_status]. apply lookup_insert_eq. Qed.


(** Extra X14. A job from its submission to its answers, when the strategy
    fails: under the conditions of X13, but with a strategy call that
    raises, [GET /status] answers 200 with status [failed], the text of the
    error behind [Processing failed: ], the parser that was submitted and
    no result; the result store is as it was before the submission, so
    that [GET /results] finds nothing new. *)
Theorem failed_job_is_reported (V : Validation) (env : Env)
    (file : UploadFile) (parser : ParserType) (msg : pystr) (w : World) :
  let id := uuid4 env (clock w) in
  let w' := handled env file parser w in
  validates V ->
  endswith (upload_filename file) (py ".pdf") = true ->
  upload_content file <> [] ->
  redis_client w = true -> last_delivered w = length (stream w) ->
  (forall k, fault env k = None) ->
  id <> [] -> decodes_back env (stream_payload file id parser) ->
  process_pdf env (4 + clock w) (upload_content file)
    (JStr (upload_filename file)) parser = inr msg ->
  (serve (get_processing_status V id) w').1
  = HTTPResponse 200
      (status_body id FAILED (py "Processing failed: " ++ msg)
         (JStr (parser_value parser)) JNull)
  /\ result_store w' = result_store w.
Proof.
  intros id w' HV Hpdf Hc Hrc Hld Hnf Hid Hback Hrun. subst w'.
  rewrite (submit_then_turn env file parser w Hpdf Hrc Hld (Hnf _) (Hnf _)).
  destruct (gateway_fields_readable env file id parser Hpdf Hc Hid Hback)
    as (Hr & Hn & Hp).
  fold id.
  rewrite (process_message_failed env _ _ id _ _ msg
             (delivered (submitted env file parser w)) Hrc Hr)
    by (rewrite ?Hn, ?Hp; assumption).
  cbn [snd].
  destruct (failed_world env (length (stream w)) id (upload_content file)
              (name_of (payload_members file id parser))
              (parser_of (payload_members file id parser)) (Exception msg)
              (pending_entry env file parser)
              (delivered (submitted env file parser w)) Hnf Hrc
              (submitted_registered env file parser w))
    as (Hrc' & Hstore & Hreg).
  cbv zeta in Hrc', Hstore, Hreg.
  set (w' := acked _ _ _) in *. split; [|exact Hstore].
  erewrite (get_processing_status_run V id w' _ FAILED _ _ _ HV Hreg);
    [reflexivity| | | | | |].
  - reflexivity.
  - reflexivity.
  - reflexivity.
  - right. eexists. reflexivity.
  - reflexivity.
  - left. reflexivity.
Qed.

(** ** The answers of [GET /results] *)






(** ** The loop with nothing to read *)

Lemma same_state_trans (w1 w2 w3 : World) :
  same_state w1 w2 -> same_state w2 w3 -> same_state w1 w3.
Proof.
  unfold same_state. intros (A & B & C & D & E & F) (A' & B' & C' & D' & E' & F').
  repeat split; congruence.
Qed.

(** Extra X19. The loop with nothing to read: when the client is missing,
    when the broker refuses every command or when no entry waits behind the
    cursor, any number of turns return without raising, write nothing to
    the log and leave the stream, the consumer group, the result store and
    the register as they are. *)
Theorem loop_idles (env : Env) (n : nat) (w : World) :
  redis_client w = false \/ (forall k, is_Some (fault env k))
  \/ (length (stream w) <= last_delivered w)%nat ->
  exists w',
    consume_messages env n w = (Return tt, w')
    /\ same_state w w' /\ log w' = log w.
Proof.
  revert w. induction n as [|n IH]; intros w Hidle.
  - exists w. split; [reflexivity|]. split; [|reflexivity].
    unfold same_state. repeat split.
  - rewrite consume_messages_step.
    destruct (consume_once_idle env w) as (w1 & Hrun & Hsame & Hlog).
    { destruct Hidle as [H | [H | H]]; [left; exact H|right; left; apply H|].
      right; right. now apply lookup_ge_None. }
    rewrite Hrun. cbn [snd].
    destruct (IH w1) as (w' & Hrun' & Hsame' & Hlog').
    { pose proof Hsame as (A & B & C & _). rewrite A, B, C.
      exact Hidle. }
    exists w'. split; [exact Hrun'|].
    split; [exact (same_state_trans _ _ _ Hsame Hsame')|congruence].
Qed.

(** The theorem at a started service, whose stream is empty. *)
Lemma loop_idles_witness :
  exists w',
    consume_messages Demo.healthy 3 Demo.started = (Return tt, w')
    /\ same_state Demo.started w' /\ log w' = log Demo.started.
Proof.
  apply (loop_idles Demo.healthy 3 Demo.started).
  right; right. cbn. lia.
Defined.

(** ** The status register *)

(** Extra X18. [POST /update-status] on a registered job merges the fields
    sent into the entry of the job: a key that was sent reads as sent, a
    key that was not sent reads as before, the entry of every other job and
    the rest of the service are untouched, and the answer is
    [Status updated]. *)
Theorem update_status_merges (id : pystr) (status_data entry : gmap string json)
    (w : World) :
  processing_status w !! id = Some entry ->
  exists entry',
    update_processing_status id status_data w
    = (Return (JObj [("message", JStr (py "Status updated"))]),
       mkWorld (redis_client w) (stream w) (last_delivered w) (pel w)
         (result_store w) (<[id := entry']> (processing_status w))
         (clock w) (log w))
    /\ (forall key v, status_data !! key = Some v -> entry' !! key = Some v)
    /\ (forall key, status_data !! key = None -> entry' !! key = entry !! key).
Proof.
  intros Hreg. destruct w as [rc st ld pl rs ps ck lg].
  cbn [processing_status] in Hreg.
  exists (status_data ∪ entry). unfold update_processing_status. mred.
  rewrite Hreg. mred. split; [reflexivity|]. split.
  - intros key v H. now apply lookup_union_Some_l.
  - intros key H. now apply lookup_union_r.
Qed.

(** The theorem at a registered job that is being processed. *)
Lemma update_status_merges_witness :
  status_of
    (exec (update_processing_status Demo.job processing_update)
       (Demo.queued PENDING good_fields)) Demo.job
  = Some (JStr (py "processing")).
Proof.
  destruct (update_status_merges Demo.job processing_update
              (Demo.entry_of PENDING) (Demo.queued PENDING good_fields)
              eq_refl) as (entry' & Hrun & Hsent & _).
  unfold exec, status_of. rewrite Hrun. cbn [snd processing_status].
  rewrite lookup_insert_eq. exact (Hsent "status" _ eq_refl).
Defined.

(** ** Cleaning and hexadecimal notation *)

Lemma replace_cp_wf (c : N) : c < 0x110000 -> replace_cp c < 0x110000.
Proof.
  unfold replace_cp, placeholder. destruct (is_surrogate c); lia.
Qed.

Lemma scrub_wf (s : pystr) : wf_pystr s -> wf_pystr (scrub s).
Proof.
  unfold wf_pystr, scrub. induction 1 as [|c s Hc _ IH]; [constructor|].
  cbn [List.map]. constructor; [now apply replace_cp_wf|exact IH].
Qed.

Lemma scrub_clean_text (s : pystr) :
  Forall (fun c => is_surrogate c = false) s -> scrub s = s.
Proof.
  unfold scrub. induction 1 as [|c s Hc _ IH]; [reflexivity|].
  cbn [List.map]. unfold replace_cp at 1. now rewrite Hc, IH.
Qed.

(** Extra X16. The cleaning expression of the worker on a Python string:
    it never raises, keeps the length of the text, returns a Python string
    without surrogates, returns a text without surrogates as it is, and
    cleaning its result again changes nothing. *)
Theorem cleaning_keeps_text (s : pystr) (w : World) :
  wf_pystr s ->
  exists s',
    clean_str s w = (Return s', w)
    /\ length s' = length s
    /\ wf_pystr s'
    /\ Forall (fun c => is_surrogate c = false) s'
    /\ clean_str s' w = (Return s', w)
    /\ (Forall (fun c => is_surrogate c = false) s -> s' = s).
Proof.
  intros Hwf. exists (scrub s).
  split; [now apply clean_str_run|].
  split; [apply length_map|].
  split; [now apply scrub_wf|].
  split; [apply scrub_no_surrogate|].
  split; [|apply scrub_clean_text].
  rewrite clean_str_run by now apply scrub_wf.
  now rewrite (scrub_clean_text (scrub s)) by apply scrub_no_surrogate.
Qed.

(** The theorem at a text with a lone surrogate. *)
Lemma cleaning_keeps_text_witness :
  exists s',
    clean_str (py "Hello" ++ [0xD800]) Demo.started = (Return s', Demo.started)
    /\ length s' = 6%nat.
Proof.
  destruct (cleaning_keeps_text (py "Hello" ++ [0xD800]) Demo.started)
    as (s' & Hrun & Hlen & _).
  - repeat constructor.
  - exists s'. split; [exact Hrun|exact Hlen].
Defined.

Lemma hex_byte_shape (b : byte) : Forall lower_hex (hex_byte b).
Proof.
  assert (H : forallb (fun c => (48 <=? c) && (c <=? 57)
                                || (97 <=? c) && (c <=? 102))
                (hex_byte b) = true) by (destruct b; reflexivity).
  unfold hex_byte in *. cbn [forallb] in H.
  rewrite !andb_true_iff, !orb_true_iff, !andb_true_iff, !N.leb_le in H.
  destruct H as (H1 & H2 & _).
  constructor; [exact H1|]. constructor; [exact H2|constructor].
Qed.

(** Extra X17. The hexadecimal text the gateway puts into the payload: two
    characters for every byte, each a digit or a letter from [a] to [f],
    so that it is empty for an empty content only; and two contents with
    the same text are the same. *)
Theorem hex_shape (bs : bytes) :
  length (hex bs) = (2 * length bs)%nat
  /\ Forall lower_hex (hex bs)
  /\ (hex bs = [] <-> bs = [])
  /\ (forall bs', hex bs' = hex bs -> bs' = bs).
Proof.
  split; [|split; [|split]].
  - induction bs as [|b bs IH]; [reflexivity|].
    change (hex (b :: bs)) with (hex_byte b ++ hex bs).
    rewrite length_app, IH. cbn [hex_byte length]. lia.
  - induction bs as [|b bs IH]; [constructor|].
    change (hex (b :: bs)) with (hex_byte b ++ hex bs).
    apply Forall_app. split; [apply hex_byte_shape|exact IH].
  - split; [|intros ->; reflexivity].
    destruct bs as [|b bs]; [reflexivity|discriminate].
  - intros bs' H. pose proof (fromhex_hex bs') as H'.
    rewrite H, fromhex_hex in H'. congruence.
Qed.

(** ** The theorems at the concrete environment *)

Lemma strict_validates : validates strict.
Proof. split; intros; reflexivity. Defined.

Lemma a_pdf_decodes_back :
  decodes_back Demo.healthy (stream_payload Demo.a_pdf Demo.job PYPDF).
Proof. split; [discriminate|reflexivity]. Defined.

Lemma empty_pdf_decodes_back :
  decodes_back Demo.healthy (stream_payload Demo.empty_pdf Demo.job PYPDF).
Proof. split; [discriminate|reflexivity]. Defined.


(** The theorem at one turn on a waiting entry. *)
Lemma loop_keeps_witness :
  (last_delivered (exec (consume_messages Demo.healthy 1)
                     (Demo.queued PENDING good_fields))
   <= length (stream (Demo.queued PENDING good_fields)))%nat.
Proof.
  apply (proj2 (proj2 (proj2 (proj2
    (loop_keeps Demo.healthy 1 (Demo.queued PENDING good_fields)))))).
  cbn. lia.
Defined.

(** The theorem at one turn on a waiting entry. *)
Lemma loop_progress_witness :
  last_delivered (exec (consume_messages Demo.healthy 1)
                    (Demo.queued PENDING good_fields)) = 1%nat.
Proof.
  apply (proj1 (loop_progress Demo.healthy 1 (Demo.queued PENDING good_fields)
                  (fun _ => eq_refl) eq_refl ltac:(cbn; lia))).
Defined.

(** The theorem at a submission of [a.pdf]. *)
Lemma submitted_content_reaches_strategy_witness :
  exists rest,
    log ((upload_pdf Demo.healthy Demo.a_pdf PYPDF;;
          consume_once Demo.healthy) Demo.started).2
    = log Demo.started
      ++ [EvUuid Demo.job;
          EvSetStatus Demo.job (pending_entry Demo.healthy Demo.a_pdf PYPDF);
          EvXAdd (stream_fields Demo.healthy Demo.a_pdf Demo.job PYPDF);
          EvDeliver 0;
          EvUpdateStatus Demo.job processing_update;
          EvProcess (upload_content Demo.a_pdf) (JStr (py "a.pdf")) PYPDF]
      ++ rest.
Proof.
  apply (submitted_content_reaches_strategy Demo.healthy Demo.a_pdf PYPDF
           Demo.started eq_refl ltac:(discriminate) eq_refl eq_refl eq_refl
           eq_refl ltac:(discriminate) a_pdf_decodes_back).
Defined.

(** The theorem at a submission of a file without content. *)
Lemma empty_submission_stays_pending_witness :
  status_of ((upload_pdf Demo.healthy Demo.empty_pdf PYPDF;;
              consume_once Demo.healthy) Demo.started).2 Demo.job
  = status PENDING.
Proof.
  apply (proj1 (proj2
    (empty_submission_stays_pending Demo.healthy Demo.empty_pdf PYPDF
       Demo.started eq_refl eq_refl eq_refl eq_refl eq_refl eq_refl
       ltac:(discriminate) empty_pdf_decodes_back))).
Defined.


(** The theorem at a submission of [a.pdf] to a strategy that fails. *)
Lemma failed_job_is_reported_witness :
  (serve (get_processing_status strict Demo.job)
     (handled (Demo.env true (fun _ => None)) Demo.a_pdf PYPDF
        Demo.started)).1
  = HTTPResponse 200
      (status_body Demo.job FAILED (py "Processing failed: boom")
         (JStr (py "pypdf")) JNull).
Proof.
  exact (proj1
    (failed_job_is_reported strict (Demo.env true (fun _ => None)) Demo.a_pdf
       PYPDF (py "boom") Demo.started strict_validates eq_refl
       ltac:(discriminate) eq_refl eq_refl (fun _ => eq_refl)
       ltac:(discriminate)
       ltac:(split; [discriminate|reflexivity]) eq_refl)).
Defined.
